(** * APIKeyVault Python client (py-client/vault_client.py)

  A shallow embedding of the command-line client and of the library
  functions it relies on, followed by the properties of the client
  that the specification states.

  Layout:
  - [Bytes]   : Python [bytes] as [list byte], conversions to [Z];
  - [Keccak]  : Keccak-256, the function behind [Web3.keccak];
  - [Utf8]    : the strict UTF-8 codec behind [str.encode]/[bytes.decode];
  - [Py]      : Python [str] values, literals, [str(int)], [str(bool)];
  - [Vault]   : the client itself, in a small exception/trace monad,
                with the vocabulary of the statements and a test
                double of the network.

  The properties follow the definitions: the codec and the provider
  table first, then the equations that run each function of the
  client, then the statements about the command-line driver. *)

From Stdlib Require Import Strings.String Strings.Ascii Strings.Byte.
From Stdlib Require Import DecimalString.
From Stdlib Require Import ZArith List Bool Lia.
Import ListNotations.

Local Open Scope Z_scope.

(* ------------------------------------------------------------------ *)
(** ** Bytes *)

Module Bytes.

(** Python [bytes]: an immutable sequence of integers in [0, 256). *)
Definition bytes := list byte.

Definition byte_to_Z (b : byte) : Z := Z.of_N (Byte.to_N b).

Definition byte_of_Z (z : Z) : byte :=
  match Byte.of_N (Z.to_N (z mod 256)) with
  | Some b => b
  | None => x00
  end.

(** The bytes of a Rocq string literal (the file is UTF-8, so a literal
    holds the UTF-8 encoding of its text). *)
Definition of_string (s : string) : bytes := list_byte_of_string s.

End Bytes.
Import Bytes.

(* ------------------------------------------------------------------ *)
(** ** Keccak-256

  [Web3.keccak(text=s)] is Keccak-256 (the original Keccak padding,
  domain byte 0x01, rate 136 bytes, 32 bytes of output) of the UTF-8
  encoding of [s].  The state is 25 lanes of 64 bits, lane [(x, y)] at
  index [x + 5 * y]. *)

Module Keccak.

Definition mask64 : Z := 2 ^ 64 - 1.

Definition rotl64 (v : Z) (n : Z) : Z :=
  Z.lor (Z.land (Z.shiftl v n) mask64) (Z.shiftr v (64 - n)).

Definition state := list Z.

Definition lane (st : state) (x y : nat) : Z :=
  nth ((x mod 5) + 5 * (y mod 5))%nat st 0.

Definition build (f : nat -> nat -> Z) : state :=
  map (fun i => f (i mod 5)%nat (i / 5)%nat) (seq 0 25).

Definition rotation_offsets : list Z :=
  [  0;  1; 62; 28; 27;
    36; 44;  6; 55; 20;
     3; 10; 43; 25; 39;
    41; 45; 15; 21;  8;
    18;  2; 61; 56; 14 ].

Definition offset (x y : nat) : Z :=
  nth ((x mod 5) + 5 * (y mod 5))%nat rotation_offsets 0.

Definition round_constants : list Z :=
  [ 0x0000000000000001; 0x0000000000008082; 0x800000000000808A;
    0x8000000080008000; 0x000000000000808B; 0x0000000080000001;
    0x8000000080008081; 0x8000000000008009; 0x000000000000008A;
    0x0000000000000088; 0x0000000080008009; 0x000000008000000A;
    0x000000008000808B; 0x800000000000008B; 0x8000000000008089;
    0x8000000000008003; 0x8000000000008002; 0x8000000000000080;
    0x000000000000800A; 0x800000008000000A; 0x8000000080008081;
    0x8000000000008080; 0x0000000080000001; 0x8000000080008008 ].

Definition theta (a : state) : state :=
  let c := fun x =>
    Z.lxor (lane a x 0) (Z.lxor (lane a x 1) (Z.lxor (lane a x 2)
      (Z.lxor (lane a x 3) (lane a x 4)))) in
  let d := fun x => Z.lxor (c (x + 4)%nat) (rotl64 (c (x + 1)%nat) 1) in
  build (fun x y => Z.lxor (lane a x y) (d x)).

(** rho and pi together: [b[y][2x+3y] = rotl(a[x][y], r[x][y])], read
    from the side of the target lane [(x', y')]: the source lane is
    [((x' + 3 y') mod 5, x')]. *)
Definition rho_pi (a : state) : state :=
  build (fun x' y' =>
    let x := ((x' + 3 * y') mod 5)%nat in
    let y := x' in
    rotl64 (lane a x y) (offset x y)).

Definition chi (b : state) : state :=
  build (fun x y =>
    Z.lxor (lane b x y)
      (Z.land (Z.lxor (lane b (x + 1) y) mask64) (lane b (x + 2) y))).

Definition iota (rc : Z) (a : state) : state :=
  build (fun x y =>
    match x, y with
    | O, O => Z.lxor (lane a 0 0) rc
    | _, _ => lane a x y
    end).

Definition round (a : state) (rc : Z) : state :=
  iota rc (chi (rho_pi (theta a))).

Definition keccak_f (a : state) : state :=
  fold_left round round_constants a.

Definition rate : nat := 136.

(** pad10*1 with the Keccak domain byte: 0x01 ... 0x80, or the single
    byte 0x81 when one byte of padding is left. *)
Definition pad (m : bytes) : bytes :=
  let q := (rate - (length m mod rate))%nat in
  match q with
  | 1%nat => m ++ [x81]
  | _ => m ++ [x01] ++ repeat x00 (q - 2) ++ [x80]
  end.

Definition blocks (m : bytes) : list bytes :=
  map (fun i => firstn rate (skipn (rate * i) m))
      (seq 0 (length m / rate)).

(** Little-endian 64-bit word number [i] of a block. *)
Definition load64 (blk : bytes) (i : nat) : Z :=
  fold_right (fun j acc =>
                Z.lor (Z.shiftl (byte_to_Z (nth (8 * i + j) blk x00))
                                (8 * Z.of_nat j)) acc)
             0 (seq 0 8).

Definition absorb (a : state) (blk : bytes) : state :=
  keccak_f
    (build (fun x y =>
       let i := (x + 5 * y)%nat in
       if (i <? 17)%nat then Z.lxor (lane a x y) (load64 blk i)
       else lane a x y)).

Definition initial : state := repeat 0 25.

Definition squeeze (a : state) : bytes :=
  map (fun i =>
         byte_of_Z (Z.shiftr (nth (i / 8) a 0) (8 * Z.of_nat (i mod 8))))
      (seq 0 32).

Definition keccak256 (m : bytes) : bytes :=
  squeeze (fold_left absorb (blocks (pad m)) initial).

End Keccak.

(** Hexadecimal rendering, used to state digests readably. *)
Definition hex_digit (n : Z) : ascii :=
nth (Z.to_nat n)
    (list_ascii_of_string "0123456789abcdef") "0"%char.

Fixpoint hex_of_bytes (bs : bytes) : string :=
match bs with
| [] => EmptyString
| b :: r =>
    String (hex_digit (byte_to_Z b / 16))
      (String (hex_digit (byte_to_Z b mod 16)) (hex_of_bytes r))
end.

(* ------------------------------------------------------------------ *)
(** ** UTF-8

  A Python [str] is a sequence of code points.  [encode] is
  [str.encode('utf-8')] and [decode] is [bytes.decode('utf-8')], both
  with the default strict error handling: [None] stands for
  [UnicodeEncodeError] and [UnicodeDecodeError].  The decoder accepts
  exactly the well-formed byte sequences of the Unicode standard: no
  overlong forms, no surrogates, nothing above U+10FFFF. *)

Module Utf8.

Definition str := list Z.

Definition is_surrogate (c : Z) : bool := (0xD800 <=? c) && (c <? 0xE000).

(** Unicode scalar values: the code points that UTF-8 can carry. *)
Definition is_scalar (c : Z) : bool :=
  (0 <=? c) && (c <? 0x110000) && negb (is_surrogate c).

Definition encode_cp (c : Z) : option bytes :=
  if c <? 0 then None
  else if c <? 0x80 then Some [byte_of_Z c]
  else if c <? 0x800 then
    Some [byte_of_Z (0xC0 + c / 64); byte_of_Z (0x80 + c mod 64)]
  else if c <? 0x10000 then
    if is_surrogate c then None
    else Some [byte_of_Z (0xE0 + c / 4096);
               byte_of_Z (0x80 + (c / 64) mod 64);
               byte_of_Z (0x80 + c mod 64)]
  else if c <? 0x110000 then
    Some [byte_of_Z (0xF0 + c / 262144);
          byte_of_Z (0x80 + (c / 4096) mod 64);
          byte_of_Z (0x80 + (c / 64) mod 64);
          byte_of_Z (0x80 + c mod 64)]
  else None.

Fixpoint encode (s : str) : option bytes :=
  match s with
  | [] => Some []
  | c :: r =>
      match encode_cp c, encode r with
      | Some b, Some br => Some (b ++ br)
      | _, _ => None
      end
  end.

(** The six payload bits of a continuation byte (10xxxxxx). *)
Definition cont (b : byte) : option Z :=
  let z := byte_to_Z b in
  if (0x80 <=? z) && (z <? 0xC0) then Some (z - 0x80) else None.

Definition push (c : Z) (r : option str) : option str :=
  option_map (cons c) r.

Fixpoint decode (bs : bytes) : option str :=
  match bs with
  | [] => Some []
  | b0 :: r0 =>
      let z0 := byte_to_Z b0 in
      if z0 <? 0x80 then push z0 (decode r0)
      else if z0 <? 0xC2 then None
      else if z0 <? 0xE0 then
        match r0 with
        | b1 :: r1 =>
            match cont b1 with
            | Some z1 => push ((z0 - 0xC0) * 64 + z1) (decode r1)
            | None => None
            end
        | _ => None
        end
      else if z0 <? 0xF0 then
        match r0 with
        | b1 :: b2 :: r2 =>
            match cont b1, cont b2 with
            | Some z1, Some z2 =>
                let c := (z0 - 0xE0) * 4096 + z1 * 64 + z2 in
                if (0x800 <=? c) && negb (is_surrogate c)
                then push c (decode r2) else None
            | _, _ => None
            end
        | _ => None
        end
      else if z0 <? 0xF5 then
        match r0 with
        | b1 :: b2 :: b3 :: r3 =>
            match cont b1, cont b2, cont b3 with
            | Some z1, Some z2, Some z3 =>
                let c := (z0 - 0xF0) * 262144 + z1 * 4096 + z2 * 64 + z3 in
                if (0x10000 <=? c) && (c <? 0x110000)
                then push c (decode r3) else None
            | _, _, _ => None
            end
        | _ => None
        end
      else None
  end.

(** Text that [str.encode('utf-8')] accepts. *)
Definition encodable (s : str) : Prop := Forall (fun c => is_scalar c = true) s.

End Utf8.

(* ------------------------------------------------------------------ *)
(** ** Python values used by the client *)

Module Py.

Definition str := Utf8.str.

(** A string literal of the source, as the code points it denotes. *)
Definition lit (s : string) : str :=
  match Utf8.decode (of_string s) with
  | Some r => r
  | None => []
  end.

Fixpoint str_eqb (a b : str) : bool :=
  match a, b with
  | [], [] => true
  | x :: a', y :: b' => (x =? y) && str_eqb a' b'
  | _, _ => false
  end.

(** [sep.join(items)] *)
Fixpoint join (sep : str) (items : list str) : str :=
  match items with
  | [] => []
  | [x] => x
  | x :: r => x ++ sep ++ join sep r
  end.

(** [str(n)] for an [int]. *)
Definition str_of_int (n : Z) : str :=
  lit (NilZero.string_of_int (Z.to_int n)).

(** [str(b)] for a [bool]. *)
Definition str_of_bool (b : bool) : str :=
  if b then lit "True" else lit "False".

(** Truth value of an object that is [None] or a sequence. *)
Definition truthy {A} (v : option (list A)) : bool :=
  match v with
  | Some (_ :: _) => true
  | _ => false
  end.

(** [d.get(k)] on a dict with [str] keys, in insertion order. *)
Fixpoint dict_get {V} (d : list (str * V)) (k : str) : option V :=
  match d with
  | [] => None
  | (k', v) :: r => if str_eqb k' k then Some v else dict_get r k
  end.

Definition dict_keys {V} (d : list (str * V)) : list str := map fst d.

End Py.

(* ------------------------------------------------------------------ *)
(** ** The client: vault_client.py *)

Module Vault.
Import Py.

(** *** Module-level constants *)

(** [__doc__], the module docstring that [main] prints as usage text. *)
Definition USAGE : str :=
join [10]
  [ [];
    lit "APIKeyVault Python Client with Signed Queries";
    [];
    lit "Usage:";
    lit "    python vault_client.py get-secret <contract> <owner> <provider>";
    lit "    python vault_client.py get-info <contract> <owner> <provider>";
    lit "    python vault_client.py whoami <contract>";
    [];
    lit "Environment:";
    lit "    PRIVATE_KEY - Wallet private key (with 0x prefix)";
    [] ].

Definition RPC_URL : str := lit "https://testnet.sapphire.oasis.io".
Definition CHAIN_ID : Z := 0x5aff.

(** One [{"name": ..., "type": ...}] item of an ABI entry. *)
Record AbiParam := mkParam { param_name : str; param_type : str }.

(** One function description of the ABI list. *)
Record AbiEntry := mkEntry {
  abi_inputs : list AbiParam;
  abi_name : str;
  abi_outputs : list AbiParam;
  abi_stateMutability : str;
  abi_type : str
}.

Definition ABI : list AbiEntry :=
[ {| abi_inputs := [ mkParam (lit "owner") (lit "address");
                     mkParam (lit "providerId") (lit "bytes32") ];
     abi_name := lit "getSecret";
     abi_outputs := [ mkParam (lit "") (lit "bytes") ];
     abi_stateMutability := lit "view";
     abi_type := lit "function" |};
  {| abi_inputs := [ mkParam (lit "owner") (lit "address");
                     mkParam (lit "providerId") (lit "bytes32") ];
     abi_name := lit "getSecretInfo";
     abi_outputs := [ mkParam (lit "version") (lit "uint64");
                      mkParam (lit "exists") (lit "bool");
                      mkParam (lit "isAllowed") (lit "bool") ];
     abi_stateMutability := lit "view";
     abi_type := lit "function" |};
  {| abi_inputs := [];
     abi_name := lit "whoAmI";
     abi_outputs := [ mkParam (lit "") (lit "address") ];
     abi_stateMutability := lit "view";
     abi_type := lit "function" |} ].

(** [Web3.keccak(text=...)]: Keccak-256 of the UTF-8 encoding of the
    text; [None] when the text cannot be encoded. *)
Definition Web3_keccak (text : str) : option bytes :=
option_map Keccak.keccak256 (Utf8.encode text).

(** Evaluation of the dict display [{name: Web3.keccak(text=name), ...}]
    at import time, entries in source order; [None] if a value raises. *)
Fixpoint dict_of_names (names : list str) : option (list (str * bytes)) :=
match names with
| [] => Some []
| n :: r =>
    match Web3_keccak n, dict_of_names r with
    | Some d, Some t => Some ((n, d) :: t)
    | _, _ => None
    end
end.

Definition PROVIDER_NAMES : list str :=
[ lit "ANTHROPIC_API_KEY";
  lit "OPENAI_API_KEY";
  lit "XAI_API_KEY";
  lit "OPENROUTER_API_KEY";
  lit "ZAI_API_KEY";
  lit "GOOGLE_API_KEY" ].

Definition PROVIDERS : list (str * bytes) :=
match dict_of_names PROVIDER_NAMES with
| Some d => d
| None => []
end.

(** *** Exceptions

    A raised exception carries its kind and the text [str(e)].  The
    kinds are the five of the error taxonomy; every one of them is an
    instance of [Exception], which is what [except Exception] catches. *)

Inductive exn_kind :=
| ConfigError
| NetworkError
| RpcError
| ContractRevertError
| DecodeError.

Record exn := mkExn { exn_kind_of : exn_kind; exn_str : str }.

(** [ValueError(msg)], the exception [get_client] raises. *)
Definition ValueError (msg : str) : exn := mkExn ConfigError msg.

(** *** Objects of the libraries *)

(** [eth_account] account: only its address is read. *)
Record Account := mkAccount { address : str }.

(** A [Web3] instance: its endpoint and, once [sapphire.wrap] has taken
    effect, the account that signs outgoing calls. *)
Record Web3 := mkWeb3 { provider_url : str; signer : option Account }.

(** The proxy returned by [w3.eth.contract(address=..., abi=...)]. *)
Record Contract := mkContract {
  c_w3 : Web3;
  c_address : str;
  c_abi : list AbiEntry
}.

(** A contract function bound to its arguments, [contract.functions.f(...)]. *)
Inductive call :=
| GetSecret (owner : str) (provider_id : bytes)
| GetSecretInfo (owner : str) (provider_id : bytes)
| WhoAmI.

(** *** The world outside the process

    What one run observes of its environment and of the libraries:
    each library call either returns or raises. *)

Record World := mkWorld {
  (** [os.environ.get("PRIVATE_KEY")], after [load_dotenv()] *)
  environ_PRIVATE_KEY : option str;
  (** [Account.from_key(private_key)] *)
  Account_from_key : str -> exn + Account;
  (** [sapphire.wrap(w3, account)] *)
  sapphire_wrap : Web3 -> Account -> exn + Web3;
  (** [w3.eth.contract(address=..., abi=...)]: checks that may raise *)
  eth_contract_check : Web3 -> str -> list AbiEntry -> option exn;
  (** [contract.functions.getSecret(owner, provider_id).call()] *)
  rpc_getSecret : Contract -> str -> bytes -> exn + bytes;
  (** [contract.functions.getSecretInfo(owner, provider_id).call()] *)
  rpc_getSecretInfo : Contract -> str -> bytes -> exn + (Z * bool * bool);
  (** [contract.functions.whoAmI().call()] *)
  rpc_whoAmI : Contract -> exn + str;
  (** [str(e)] of the [UnicodeDecodeError] raised on these bytes *)
  UnicodeDecodeError_str : bytes -> str
}.

(** *** Observable events, in program order *)

Inductive event :=
| EvEnviron                                   (* PRIVATE_KEY is read *)
| EvFromKey                                   (* the signer is loaded *)
| EvHTTPProvider (url : str)                  (* the Web3 client is constructed *)
| EvWrap (a : Account)                        (* the client is wrapped *)
| EvPrint (line : str)                        (* print(line) *)
| EvContract (addr : str) (abi : list AbiEntry) (* a contract proxy is built *)
| EvCall (c : Contract) (f : call).           (* a call is built and sent *)

(** Events that build a contract proxy or send a call to the network. *)
Definition is_network (e : event) : bool :=
match e with EvContract _ _ | EvCall _ _ => true | _ => false end.

Definition printed (t : list event) : list str :=
flat_map (fun e => match e with EvPrint s => [s] | _ => [] end) t.

(** *** Exceptions and trace, as a monad *)

Inductive result (A : Type) :=
| Ok (a : A)
| Raised (e : exn).
Arguments Ok {A} a.
Arguments Raised {A} e.

Definition M (A : Type) : Type := World -> result A * list event.

Definition ret {A} (a : A) : M A := fun _ => (Ok a, []).

Definition raise {A} (e : exn) : M A := fun _ => (Raised e, []).

Definition bind {A B} (m : M A) (k : A -> M B) : M B :=
fun w =>
  match m w with
  | (Ok a, t1) => let (r, t2) := k a w in (r, t1 ++ t2)
  | (Raised e, t1) => (Raised e, t1)
  end.

(** [try: body  except Exception as e: handler(e)] *)
Definition try_except {A} (body : M A) (handler : exn -> M A) : M A :=
fun w =>
  match body w with
  | (Ok a, t1) => (Ok a, t1)
  | (Raised e, t1) => let (r, t2) := handler e w in (r, t1 ++ t2)
  end.

Definition emit (e : event) : M unit := fun _ => (Ok tt, [e]).

Definition of_sum {A} (e : event) (f : World -> exn + A) : M A :=
fun w =>
  match f w with
  | inr a => (Ok a, [e])
  | inl x => (Raised x, [e])
  end.

Notation "x <- m ;; k" := (bind m (fun x => k))
  (at level 61, m at next level, right associativity).
Notation "' pat <- m ;; k" := (bind m (fun x => match x with pat => k end))
  (at level 61, pat pattern, m at next level, right associativity).
Notation "m ;; k" := (bind m (fun _ => k))
  (at level 61, right associativity).

(** *** Primitive actions *)

Definition print (line : str) : M unit := emit (EvPrint line).

Definition os_environ_get_PRIVATE_KEY : M (option str) :=
fun w => (Ok (environ_PRIVATE_KEY w), [EvEnviron]).

Definition Account_from_key_ (private_key : str) : M Account :=
of_sum EvFromKey (fun w => Account_from_key w private_key).

Definition Web3_HTTPProvider (url : str) : M Web3 :=
fun _ => (Ok (mkWeb3 url None), [EvHTTPProvider url]).

Definition sapphire_wrap_ (w3 : Web3) (account : Account) : M Web3 :=
of_sum (EvWrap account) (fun w => sapphire_wrap w w3 account).

Definition eth_contract (w3 : Web3) (addr : str) (abi : list AbiEntry)
  : M Contract :=
fun w =>
  match eth_contract_check w w3 addr abi with
  | None => (Ok (mkContract w3 addr abi), [EvContract addr abi])
  | Some x => (Raised x, [EvContract addr abi])
  end.

Definition call_getSecret (c : Contract) (owner : str) (pid : bytes)
  : M bytes :=
of_sum (EvCall c (GetSecret owner pid)) (fun w => rpc_getSecret w c owner pid).

Definition call_getSecretInfo (c : Contract) (owner : str) (pid : bytes)
  : M (Z * bool * bool) :=
of_sum (EvCall c (GetSecretInfo owner pid))
       (fun w => rpc_getSecretInfo w c owner pid).

Definition call_whoAmI (c : Contract) : M str :=
of_sum (EvCall c WhoAmI) (fun w => rpc_whoAmI w c).

(** [secret_bytes.decode('utf-8')] *)
Definition decode_utf8 (b : bytes) : M str :=
fun w =>
  match Utf8.decode b with
  | Some s => (Ok s, [])
  | None => (Raised (mkExn DecodeError (UnicodeDecodeError_str w b)), [])
  end.

Definition ZERO_ADDRESS : str :=
lit "0x0000000000000000000000000000000000000000".

Definition nl : str := [10].

(** *** The functions of the module *)

Definition get_client : M (Web3 * Account) :=
private_key <- os_environ_get_PRIVATE_KEY ;;
match private_key with
| Some ((_ :: _) as key) =>
    account <- Account_from_key_ key ;;
    w3 <- Web3_HTTPProvider RPC_URL ;;
    w3 <- sapphire_wrap_ w3 account ;;
    ret (w3, account)
| _ => raise (ValueError (lit "PRIVATE_KEY environment variable required"))
end.

Definition unknown_provider_line : str :=
lit "Unknown provider. Valid: " ++ join (lit ", ") (dict_keys PROVIDERS).

Definition get_secret (contract_addr owner provider : str) : M unit :=
'(w3, account) <- get_client ;;
print (lit "Caller: " ++ address account) ;;
print (lit "Owner: " ++ owner) ;;
print (lit "Provider: " ++ provider) ;;
match dict_get PROVIDERS provider with
| Some ((_ :: _) as provider_id) =>
    contract <- eth_contract w3 contract_addr ABI ;;
    try_except
      (secret_bytes <- call_getSecret contract owner provider_id ;;
       secret <- decode_utf8 secret_bytes ;;
       print (nl ++ lit "✓ Secret: " ++ secret))
      (fun e => print (nl ++ lit "✗ Error: " ++ exn_str e))
| _ => print unknown_provider_line
end.

Definition get_info (contract_addr owner provider : str) : M unit :=
'(w3, account) <- get_client ;;
print (lit "Caller: " ++ address account) ;;
match dict_get PROVIDERS provider with
| Some ((_ :: _) as provider_id) =>
    contract <- eth_contract w3 contract_addr ABI ;;
    try_except
      ('(version, exists_, isAllowed) <-
          call_getSecretInfo contract owner provider_id ;;
       print (nl ++ lit "Version: " ++ str_of_int version) ;;
       print (lit "Exists: " ++ str_of_bool exists_) ;;
       print (lit "IsAllowed: " ++ str_of_bool isAllowed
              ++ lit "  <-- Should be True with signed query"))
      (fun e => print (nl ++ lit "✗ Error: " ++ exn_str e))
| _ => print unknown_provider_line
end.

Definition abi_with_whoami : list AbiEntry :=
ABI ++ [ {| abi_inputs := [];
            abi_name := lit "whoAmI";
            abi_outputs := [ mkParam (lit "") (lit "address") ];
            abi_stateMutability := lit "view";
            abi_type := lit "function" |} ].

Definition whoami (contract_addr : str) : M unit :=
'(w3, account) <- get_client ;;
print (lit "Expected: " ++ address account) ;;
contract <- eth_contract w3 contract_addr abi_with_whoami ;;
try_except
  (result <- call_whoAmI contract ;;
   print (lit "Returned: " ++ result) ;;
   if str_eqb result (address account) then
     print (nl ++ lit "✓ Signed queries working!")
   else if str_eqb result ZERO_ADDRESS then
     print (nl ++ lit "✗ Unsigned (msg.sender = address(0))")
   else
     print (nl ++ lit "? Unexpected result"))
  (fun e => print (nl ++ lit "✗ Error: " ++ exn_str e)).

(** [main], on [sys.argv]. *)
Definition main (argv : list str) : M unit :=
if (length argv <? 2)%nat then print USAGE
else
  let cmd := nth 1 argv [] in
  if str_eqb cmd (lit "get-secret") && (length argv =? 5)%nat then
    get_secret (nth 2 argv []) (nth 3 argv []) (nth 4 argv [])
  else if str_eqb cmd (lit "get-info") && (length argv =? 5)%nat then
    get_info (nth 2 argv []) (nth 3 argv []) (nth 4 argv [])
  else if str_eqb cmd (lit "whoami") && (length argv =? 3)%nat then
    whoami (nth 2 argv [])
  else print USAGE.

(** The exit status of the interpreter: 0 when [main] returns, 1 when an
    exception leaves it (the interpreter then prints a traceback). *)
Definition exit_status {A} (r : result A) : Z :=
match r with Ok _ => 0 | Raised _ => 1 end.

(** *** Vocabulary of the statements *)

(** A recognized command line, as the usage text lists them. *)
Inductive command :=
| CmdGetSecret (contract owner provider : str)
| CmdGetInfo (contract owner provider : str)
| CmdWhoami (contract : str).

(** The function of the module that a command stands for. *)
Definition run_command (c : command) : M unit :=
match c with
| CmdGetSecret contract owner provider => get_secret contract owner provider
| CmdGetInfo contract owner provider => get_info contract owner provider
| CmdWhoami contract => whoami contract
end.

(** [sys.argv] of a command: the program name, the command word, the
    operands. *)
Definition argv_of (prog : str) (c : command) : list str :=
match c with
| CmdGetSecret contract owner provider =>
    [prog; lit "get-secret"; contract; owner; provider]
| CmdGetInfo contract owner provider =>
    [prog; lit "get-info"; contract; owner; provider]
| CmdWhoami contract => [prog; lit "whoami"; contract]
end.

(** Recognition of an argument vector in the words of the
    specification: the first argument is [get-secret] or [get-info]
    followed by exactly three further arguments, or [whoami] followed by
    exactly one.  To be compared with what [main] does. *)
Definition recognized_by_spec (argv : list str) : option command :=
match argv with
| [_; cmd; a] =>
    if str_eqb cmd (lit "whoami") then Some (CmdWhoami a) else None
| [_; cmd; a; b; c] =>
    if str_eqb cmd (lit "get-secret") then Some (CmdGetSecret a b c)
    else if str_eqb cmd (lit "get-info") then Some (CmdGetInfo a b c)
    else None
| _ => None
end.

(** The contract address and the ABI that a command binds its proxy to,
    and whether the command gets as far as building the proxy. *)
Definition command_contract (cmd : command) : str :=
match cmd with
| CmdGetSecret c _ _ | CmdGetInfo c _ _ | CmdWhoami c => c
end.

Definition command_abi (cmd : command) : list AbiEntry :=
match cmd with
| CmdWhoami _ => abi_with_whoami
| _ => ABI
end.

Definition proxy_reached (cmd : command) : Prop :=
match cmd with
| CmdGetSecret _ _ p | CmdGetInfo _ _ p => In p PROVIDER_NAMES
| CmdWhoami _ => True
end.

(** The call of a command, or the decoding of what it returned, raises
    [e] (the statements inside the [try] of the command). *)
Definition call_step_raises (w : World) (w3 : Web3) (cmd : command)
  (e : exn) : Prop :=
match cmd with
| CmdGetSecret c o p =>
    exists pid, dict_get PROVIDERS p = Some pid /\
      (rpc_getSecret w (mkContract w3 c ABI) o pid = inl e \/
       exists b, rpc_getSecret w (mkContract w3 c ABI) o pid = inr b /\
                 Utf8.decode b = None /\
                 e = mkExn DecodeError (UnicodeDecodeError_str w b))
| CmdGetInfo c o p =>
    exists pid, dict_get PROVIDERS p = Some pid /\
      rpc_getSecretInfo w (mkContract w3 c ABI) o pid = inl e
| CmdWhoami c =>
    rpc_whoAmI w (mkContract w3 c abi_with_whoami) = inl e
end.

(** The events of a [get_client] that returns account [a]. *)
Definition client_events (a : Account) : list event :=
[EvEnviron; EvFromKey; EvHTTPProvider RPC_URL; EvWrap a].

Definition MISSING_KEY : exn :=
ValueError (lit "PRIVATE_KEY environment variable required").

(** The line printed by the three [except Exception as e] handlers. *)
Definition error_line (e : exn) : str := nl ++ lit "✗ Error: " ++ exn_str e.

Definition secret_line (secret : str) : str := nl ++ lit "✓ Secret: " ++ secret.

Definition VERDICT_SIGNED : str := nl ++ lit "✓ Signed queries working!".
Definition VERDICT_UNSIGNED : str :=
nl ++ lit "✗ Unsigned (msg.sender = address(0))".
Definition VERDICT_UNEXPECTED : str := nl ++ lit "? Unexpected result".

Definition no_network (t : list event) : Prop :=
forallb (fun e => negb (is_network e)) t = true.

Definition no_call (t : list event) : Prop :=
forall c f, ~ In (EvCall c f) t.

(** *** A test double of the network *)

(** Modelled from the spec: the signed-query transport of the Sapphire
    library, which is not part of the client's source.  A read call sent
    by a wrapped client carries the signer's address as [msg.sender]; a
    read call sent by an unwrapped client carries the zero address. *)
Definition msg_sender (w3 : Web3) : str :=
match signer w3 with
| Some a => address a
| None => ZERO_ADDRESS
end.

(** Modelled from the spec: the [whoAmI] function of the contract, which
    is not part of the client's source.  It returns the contract's view
    of [msg.sender]. *)
Definition mock_whoAmI (c : Contract) : exn + str :=
inr (msg_sender (c_w3 c)).

(** Modelled from the spec: [sapphire.wrap] taking effect, the returned
    client signs its read calls with the account. *)
Definition wrap_signed (w3 : Web3) (a : Account) : exn + Web3 :=
inr (mkWeb3 (provider_url w3) (Some a)).

(** Sample worlds, used to run the client on concrete inputs. *)

Definition sample_account : Account :=
mkAccount (lit "0x4Ec6E3b99E2E4422d6e64313F5AA2A8470DCDa2b").

Definition sample_contract : str :=
lit "0x440222b531537ac1A90dbDF906D36Be0536e4Ec8".

Definition mock_world (key : option str)
  (wrap : Web3 -> Account -> exn + Web3) (secret : exn + bytes) : World :=
{| environ_PRIVATE_KEY := key;
   Account_from_key := fun _ => inr sample_account;
   sapphire_wrap := wrap;
   eth_contract_check := fun _ _ _ => None;
   rpc_getSecret := fun _ _ _ => secret;
   rpc_getSecretInfo := fun _ _ _ => inr (1, true, true);
   rpc_whoAmI := mock_whoAmI;
   UnicodeDecodeError_str :=
     fun _ => lit "'utf-8' codec can't decode bytes" |}.

Definition sample_key : str :=
lit "0x0000000000000000000000000000000000000000000000000000000000000001".

Definition hello_bytes : bytes := of_string "hello-key-123".

Definition world_signed : World :=
mock_world (Some sample_key) wrap_signed (inr hello_bytes).

Definition world_no_key : World :=
mock_world None wrap_signed (inr hello_bytes).

Definition world_bad_bytes : World :=
mock_world (Some sample_key) wrap_signed (inr [xff; xfe]).

Definition sample_prog : str := lit "vault_client.py".

Definition sample_owner : str := address sample_account.

(** The provider id used by test_signed_query.py. *)
Definition openai_id : bytes :=
Keccak.keccak256 (of_string "OPENAI_API_KEY").

Definition w3_signed : Web3 := mkWeb3 RPC_URL (Some sample_account).

Definition revert_exn : exn :=
mkExn ContractRevertError (lit "execution reverted: not allowed").

Definition world_revert : World :=
mock_world (Some sample_key) wrap_signed (inl revert_exn).

End Vault.

(* ------------------------------------------------------------------ *)
(** ** Counting what a run does *)

Module Trace.
Import Py Vault.

Definition is_call (e : event) : bool :=
match e with EvCall _ _ => true | _ => false end.

Definition is_proxy (e : event) : bool :=
match e with EvContract _ _ => true | _ => false end.

(** The calls sent and the proxies built during a run, in order. *)
Definition calls (t : list event) : list event := filter is_call t.
Definition proxies (t : list event) : list event := filter is_proxy t.

(** A world in which the key is set but [Account.from_key] rejects it. *)
Definition bad_key_exn : exn :=
mkExn ConfigError (lit "The private key must be exactly 32 bytes long").

Definition world_bad_key : World :=
{| environ_PRIVATE_KEY := Some (lit "0x1234");
   Account_from_key := fun _ => inl bad_key_exn;
   sapphire_wrap := wrap_signed;
   eth_contract_check := fun _ _ _ => None;
   rpc_getSecret := fun _ _ _ => inr hello_bytes;
   rpc_getSecretInfo := fun _ _ _ => inr (1, true, true);
   rpc_whoAmI := mock_whoAmI;
   UnicodeDecodeError_str := fun _ => lit "'utf-8' codec can't decode bytes" |}.

End Trace.

(* ------------------------------------------------------------------ *)
(** ** Building the contract proxy *)

Module Proxy.
Import Py Vault.

(** What a command has printed when it builds its proxy. *)
Definition lines_before_proxy (cmd : command) (a : Account) : list event :=
match cmd with
| CmdGetSecret _ o p =>
    [EvPrint (lit "Caller: " ++ address a);
     EvPrint (lit "Owner: " ++ o);
     EvPrint (lit "Provider: " ++ p)]
| CmdGetInfo _ _ _ => [EvPrint (lit "Caller: " ++ address a)]
| CmdWhoami _ => [EvPrint (lit "Expected: " ++ address a)]
end.

(** [w3.eth.contract] validates the ABI it is given and raises a
    ValueError when two function entries have the same selector, the
    first four bytes of the Keccak-256 digest of the signature
    [name(type,...)]. *)

Definition is_function (e : AbiEntry) : bool :=
str_eqb (abi_type e) (lit "function").

Definition function_signature (e : AbiEntry) : str :=
abi_name e ++ lit "(" ++ join (lit ",") (map param_type (abi_inputs e))
  ++ lit ")".

Definition selector (e : AbiEntry) : option bytes :=
option_map (firstn 4) (Web3_keccak (function_signature e)).

Fixpoint bytes_eqb (a b : bytes) : bool :=
match a, b with
| [], [] => true
| x :: a', y :: b' => Byte.eqb x y && bytes_eqb a' b'
| _, _ => false
end.

Definition selector_eqb (a b : option bytes) : bool :=
match a, b with
| Some x, Some y => bytes_eqb x y
| _, _ => false
end.

Fixpoint has_duplicate (l : list (option bytes)) : bool :=
match l with
| [] => false
| x :: r => existsb (selector_eqb x) r || has_duplicate r
end.

Definition has_colliding_selectors (abi : list AbiEntry) : bool :=
has_duplicate (map selector (filter is_function abi)).

(** A world whose [w3.eth.contract] rejects colliding selectors. *)
Definition validates_abi (w : World) : Prop :=
forall w3 addr abi,
  has_colliding_selectors abi = true ->
  eth_contract_check w w3 addr abi <> None.

Definition collision_exn : exn :=
ValueError (lit "Abi contains functions with colliding selectors.").

Definition web3_validate_abi (abi : list AbiEntry) : option exn :=
if has_colliding_selectors abi then Some collision_exn else None.

(** A sample world with that validation, a valid key and a contract
    that would answer every call. *)
Definition world_validating : World :=
{| environ_PRIVATE_KEY := Some sample_key;
   Account_from_key := fun _ => inr sample_account;
   sapphire_wrap := wrap_signed;
   eth_contract_check := fun _ _ abi => web3_validate_abi abi;
   rpc_getSecret := fun _ _ _ => inr hello_bytes;
   rpc_getSecretInfo := fun _ _ _ => inr (1, true, true);
   rpc_whoAmI := mock_whoAmI;
   UnicodeDecodeError_str := fun _ => lit "'utf-8' codec can't decode bytes" |}.

End Proxy.

(* ------------------------------------------------------------------ *)
(** ** The test script: test_signed_query.py *)

Module TestSignedQuery.
Import Py.

Definition CONTRACT : str := lit "0x440222b531537ac1A90dbDF906D36Be0536e4Ec8".
Definition OWNER : str := lit "0x4Ec6E3b99E2E4422d6e64313F5AA2A8470DCDa2b".
Definition RPC_URL : str := lit "https://testnet.sapphire.oasis.io".

Definition ABI : list Vault.AbiEntry :=
[ {| Vault.abi_inputs := [ Vault.mkParam (lit "owner") (lit "address");
                           Vault.mkParam (lit "providerId") (lit "bytes32") ];
     Vault.abi_name := lit "getSecret";
     Vault.abi_outputs := [ Vault.mkParam (lit "") (lit "bytes") ];
     Vault.abi_stateMutability := lit "view";
     Vault.abi_type := lit "function" |};
  {| Vault.abi_inputs := [ Vault.mkParam (lit "owner") (lit "address");
                           Vault.mkParam (lit "providerId") (lit "bytes32") ];
     Vault.abi_name := lit "getSecretInfo";
     Vault.abi_outputs := [ Vault.mkParam (lit "version") (lit "uint64");
                            Vault.mkParam (lit "exists") (lit "bool");
                            Vault.mkParam (lit "isAllowed") (lit "bool") ];
     Vault.abi_stateMutability := lit "view";
     Vault.abi_type := lit "function" |} ].

(** The world of the script: that of the client, and the chain id that
    the endpoint reports. *)
Record World := mkWorld {
  client_world : Vault.World;
  (** [w3.eth.chain_id] *)
  rpc_chain_id : Vault.Web3 -> Vault.exn + Z
}.

Inductive event :=
| Ev (e : Vault.event)                 (* an event the client also has *)
| EvChainId (w3 : Vault.Web3).         (* the chain id is requested *)

Definition M (A : Type) : Type := World -> Vault.result A * list event.

Definition ret {A} (a : A) : M A := fun _ => (Vault.Ok a, []).

Definition raise {A} (e : Vault.exn) : M A := fun _ => (Vault.Raised e, []).

Definition bind {A B} (m : M A) (k : A -> M B) : M B :=
fun w =>
  match m w with
  | (Vault.Ok a, t1) => let (r, t2) := k a w in (r, t1 ++ t2)
  | (Vault.Raised e, t1) => (Vault.Raised e, t1)
  end.

Definition try_except {A} (body : M A) (handler : Vault.exn -> M A) : M A :=
fun w =>
  match body w with
  | (Vault.Ok a, t1) => (Vault.Ok a, t1)
  | (Vault.Raised e, t1) => let (r, t2) := handler e w in (r, t1 ++ t2)
  end.

(** An action of the client, run in the world of the script. *)
Definition lift {A} (m : Vault.M A) : M A :=
fun w => let (r, t) := m (client_world w) in (r, map Ev t).

Definition print (line : str) : M unit := lift (Vault.print line).

Definition eth_chain_id (w3 : Vault.Web3) : M Z :=
fun w =>
  match rpc_chain_id w w3 with
  | inr n => (Vault.Ok n, [EvChainId w3])
  | inl x => (Vault.Raised x, [EvChainId w3])
  end.

Notation "x <- m ;; k" := (bind m (fun x => k))
  (at level 61, m at next level, right associativity).
Notation "' pat <- m ;; k" := (bind m (fun x => match x with pat => k end))
  (at level 61, pat pattern, m at next level, right associativity).
Notation "m ;; k" := (bind m (fun _ => k))
  (at level 61, right associativity).

(** [Web3.keccak(text="OPENAI_API_KEY")], evaluated in [main]. *)
Definition provider_id : bytes :=
match Vault.Web3_keccak (lit "OPENAI_API_KEY") with
| Some d => d
| None => []
end.

Definition main : M unit :=
private_key <- lift Vault.os_environ_get_PRIVATE_KEY ;;
match private_key with
| Some ((_ :: _) as key) =>
    account <- lift (Vault.Account_from_key_ key) ;;
    print (lit "Signer address: " ++ Vault.address account ++ Vault.nl) ;;
    w3 <- lift (Vault.Web3_HTTPProvider RPC_URL) ;;
    w3 <- lift (Vault.sapphire_wrap_ w3 account) ;;
    chain_id <- eth_chain_id w3 ;;
    print (lit "Connected to chain ID: " ++ str_of_int chain_id ++ Vault.nl) ;;
    contract <- lift (Vault.eth_contract w3 CONTRACT ABI) ;;
    print (lit "--- Test 1: getSecretInfo (signed query) ---") ;;
    try_except
      ('(version, exists_, isAllowed) <-
          lift (Vault.call_getSecretInfo contract OWNER provider_id) ;;
       print (lit "Version: " ++ str_of_int version) ;;
       print (lit "Exists: " ++ str_of_bool exists_) ;;
       print (lit "IsAllowed: " ++ str_of_bool isAllowed
              ++ lit "  <-- Should be TRUE with signed query!"))
      (fun e => print (lit "Error: " ++ Vault.exn_str e)) ;;
    print (Vault.nl ++ lit "--- Test 2: getSecret (signed query) ---") ;;
    try_except
      (secret_bytes <-
          lift (Vault.call_getSecret contract OWNER provider_id) ;;
       secret <- lift (Vault.decode_utf8 secret_bytes) ;;
       print (lit "Secret retrieved: " ++ secret))
      (fun e => print (lit "Error: " ++ Vault.exn_str e)) ;;
    print (Vault.nl ++ lit "=== Test Complete ===")
| _ => raise (Vault.ValueError (lit "PRIVATE_KEY env var required"))
end.

(** *** Vocabulary of the statements *)

Definition P (line : str) : event := Ev (Vault.EvPrint line).

(** What Test 1 prints for an outcome of the [getSecretInfo] call. *)
Definition test1_lines (r : Vault.exn + (Z * bool * bool)) : list str :=
match r with
| inl e => [lit "Error: " ++ Vault.exn_str e]
| inr (version, exists_, isAllowed) =>
    [lit "Version: " ++ str_of_int version;
     lit "Exists: " ++ str_of_bool exists_;
     lit "IsAllowed: " ++ str_of_bool isAllowed
       ++ lit "  <-- Should be TRUE with signed query!"]
end.

(** What Test 2 prints for an outcome of the [getSecret] call. *)
Definition test2_lines (w : World) (r : Vault.exn + bytes) : list str :=
match r with
| inl e => [lit "Error: " ++ Vault.exn_str e]
| inr b =>
    match Utf8.decode b with
    | Some s => [lit "Secret retrieved: " ++ s]
    | None =>
        [lit "Error: " ++ Vault.UnicodeDecodeError_str (client_world w) b]
    end
end.

(** The events up to the request of the chain id. *)
Definition setup_events (a : Vault.Account) (w3 : Vault.Web3) : list event :=
[Ev Vault.EvEnviron; Ev Vault.EvFromKey;
 P (lit "Signer address: " ++ Vault.address a ++ Vault.nl);
 Ev (Vault.EvHTTPProvider RPC_URL); Ev (Vault.EvWrap a); EvChainId w3].

Definition is_call (e : event) : bool :=
match e with Ev (Vault.EvCall _ _) => true | _ => false end.

(** The calls sent and the lines printed during a run, in order. *)
Definition calls (t : list event) : list event := filter is_call t.

Definition printed (t : list event) : list str :=
flat_map (fun e => match e with Ev (Vault.EvPrint s) => [s] | _ => [] end) t.

(** Sample worlds of the script. *)
Definition world_ok : World :=
mkWorld Vault.world_signed (fun _ => inr 23295).

Definition world_test1_reverts : World :=
mkWorld
  {| Vault.environ_PRIVATE_KEY := Some Vault.sample_key;
     Vault.Account_from_key := fun _ => inr Vault.sample_account;
     Vault.sapphire_wrap := Vault.wrap_signed;
     Vault.eth_contract_check := fun _ _ _ => None;
     Vault.rpc_getSecret := fun _ _ _ => inr Vault.hello_bytes;
     Vault.rpc_getSecretInfo := fun _ _ _ => inl Vault.revert_exn;
     Vault.rpc_whoAmI := Vault.mock_whoAmI;
     Vault.UnicodeDecodeError_str :=
       fun _ => lit "'utf-8' codec can't decode bytes" |}
  (fun _ => inr 23295).

Definition unreachable_exn : Vault.exn :=
Vault.mkExn Vault.NetworkError (lit "HTTPSConnectionPool: Max retries exceeded").

Definition world_unreachable : World :=
mkWorld Vault.world_signed (fun _ => inl unreachable_exn).

Definition world_no_key : World :=
mkWorld Vault.world_no_key (fun _ => inr 23295).

End TestSignedQuery.

(* ================================================================== *)
(** * Properties *)

(** ** Bytes and Keccak-256 *)

Lemma some_inj {A} (x y : A) : Some x = Some y -> y = x.
Proof. congruence. Qed.

Ltac take_some :=
  let E := fresh "E" in intros E; apply some_inj in E; subst.

Lemma byte_to_Z_range (b : byte) : 0 <= byte_to_Z b < 256.
Proof.
  unfold byte_to_Z. pose proof (Byte.to_N_bounded b). lia.
Qed.

Lemma byte_to_of_Z (z : Z) : 0 <= z < 256 -> byte_to_Z (byte_of_Z z) = z.
Proof.
  intros Hz. unfold byte_to_Z, byte_of_Z.
  rewrite Z.mod_small by lia.
  destruct (Byte.of_N (Z.to_N z)) as [b|] eqn:E.
  - apply Byte.to_of_N in E. rewrite E. lia.
  - apply Byte.of_N_None_iff in E. lia.
Qed.

Lemma byte_of_to_Z (b : byte) : byte_of_Z (byte_to_Z b) = b.
Proof.
  unfold byte_of_Z. rewrite Z.mod_small by apply byte_to_Z_range.
  unfold byte_to_Z. rewrite N2Z.id, Byte.of_to_N. reflexivity.
Qed.

(** Two published Keccak-256 digests: of the empty input and of "abc". *)
Example keccak256_empty :
  hex_of_bytes (Keccak.keccak256 []) =
  "c5d2460186f7233c927e7db2dcc703c0e500b653ca82273b7bfad8045d85a470"%string.
Proof. vm_compute. reflexivity. Qed.

Example keccak256_abc :
  hex_of_bytes (Keccak.keccak256 (of_string "abc")) =
  "4e03657aea45a94fc7d47ba826c8d667c0d1e6e33a64a036ec44f58fa12d6c45"%string.
Proof. vm_compute. reflexivity. Qed.

Lemma keccak256_length (m : bytes) : length (Keccak.keccak256 m) = 32%nat.
Proof.
  unfold Keccak.keccak256, Keccak.squeeze.
  rewrite length_map, length_seq. reflexivity.
Qed.

(** The padded message is a whole number of blocks, so nothing of the
    input is dropped by [blocks]. *)
Lemma keccak_pad_length (m : bytes) :
  (length (Keccak.pad m) mod Keccak.rate = 0)%nat /\
  (length m < length (Keccak.pad m))%nat.
Proof.
  unfold Keccak.pad, Keccak.rate.
  pose proof (Nat.mod_upper_bound (length m) 136 ltac:(lia)) as Hb.
  pose proof (Nat.div_mod_eq (length m) 136) as Hd.
  remember (length m mod 136)%nat as k.
  destruct (136 - k)%nat as [|[|q]] eqn:E; [lia| |].
  - rewrite length_app. cbn [length]. split; [|lia].
    replace (length m + 1)%nat with ((length m / 136 + 1) * 136)%nat by lia.
    apply Nat.Div0.mod_mul.
  - rewrite !length_app, repeat_length. cbn [length].
    split; [|lia].
    replace (length m + (1 + (S (S q) - 2 + 1)))%nat
      with ((length m / 136 + 1) * 136)%nat by lia.
    apply Nat.Div0.mod_mul.
Qed.

(** ** UTF-8: decoding inverts encoding *)

Section Utf8Codec.
Import Utf8.

Lemma decode_cons (b0 : byte) (r0 : bytes) :
  decode (b0 :: r0) =
  let z0 := byte_to_Z b0 in
  if z0 <? 0x80 then push z0 (decode r0)
  else if z0 <? 0xC2 then None
  else if z0 <? 0xE0 then
    match r0 with
    | b1 :: r1 =>
        match cont b1 with
        | Some z1 => push ((z0 - 0xC0) * 64 + z1) (decode r1)
        | None => None
        end
    | _ => None
    end
  else if z0 <? 0xF0 then
    match r0 with
    | b1 :: b2 :: r2 =>
        match cont b1, cont b2 with
        | Some z1, Some z2 =>
            let c := (z0 - 0xE0) * 4096 + z1 * 64 + z2 in
            if (0x800 <=? c) && negb (is_surrogate c)
            then push c (decode r2) else None
        | _, _ => None
        end
    | _ => None
    end
  else if z0 <? 0xF5 then
    match r0 with
    | b1 :: b2 :: b3 :: r3 =>
        match cont b1, cont b2, cont b3 with
        | Some z1, Some z2, Some z3 =>
            let c := (z0 - 0xF0) * 262144 + z1 * 4096 + z2 * 64 + z3 in
            if (0x10000 <=? c) && (c <? 0x110000)
            then push c (decode r3) else None
        | _, _, _ => None
        end
    | _ => None
    end
  else None.
Proof. reflexivity. Qed.

Lemma cont_payload (v : Z) :
  0 <= v < 64 -> cont (byte_of_Z (0x80 + v)) = Some v.
Proof.
  intros Hv. unfold cont. rewrite byte_to_of_Z by lia.
  destruct (Z.leb_spec 0x80 (0x80 + v)); [|lia].
  destruct (Z.ltb_spec (0x80 + v) 0xC0); [|lia].
  cbn [andb]. f_equal. lia.
Qed.

Ltac split_ltb :=
  repeat match goal with
  | |- context [?a <? ?b] => destruct (Z.ltb_spec a b); try lia
  | |- context [?a <=? ?b] => destruct (Z.leb_spec a b); try lia
  end.

Lemma decode_encode_cp (c : Z) (bs rest : bytes) :
  encode_cp c = Some bs -> decode (bs ++ rest) = push c (decode rest).
Proof.
  unfold encode_cp, is_surrogate.
  destruct (Z.ltb_spec c 0); [discriminate|].
  destruct (Z.ltb_spec c 0x80).
  { take_some. cbn [app]. rewrite decode_cons. cbv zeta.
    rewrite byte_to_of_Z by lia. split_ltb. reflexivity. }
  destruct (Z.ltb_spec c 0x800).
  { take_some. cbn [app]. rewrite decode_cons. cbv zeta.
    assert (0 <= c mod 64 < 64) by (apply Z.mod_pos_bound; lia).
    assert (2 <= c / 64 < 32) by (Z.div_mod_to_equations; lia).
    rewrite byte_to_of_Z by lia. split_ltb.
    rewrite cont_payload by lia.
    f_equal. Z.div_mod_to_equations; lia. }
  destruct (Z.ltb_spec c 0x10000).
  { destruct (Z.leb_spec 0xD800 c); destruct (Z.ltb_spec c 0xE000);
      cbn [andb]; try discriminate.
    all: take_some; cbn [app]; rewrite decode_cons; cbv zeta.
    all: assert (0 <= c mod 64 < 64) by (apply Z.mod_pos_bound; lia).
    all: assert (0 <= (c / 64) mod 64 < 64) by (apply Z.mod_pos_bound; lia).
    all: assert (0 <= c / 4096 < 16) by (Z.div_mod_to_equations; lia).
    all: rewrite byte_to_of_Z by lia; split_ltb.
    all: rewrite !cont_payload by lia.
    all: replace ((0xE0 + c / 4096 - 0xE0) * 4096 + (c / 64) mod 64 * 64
                  + c mod 64) with c by (Z.div_mod_to_equations; lia).
    all: unfold is_surrogate; split_ltb; reflexivity. }
  destruct (Z.ltb_spec c 0x110000); [|discriminate].
  take_some. cbn [app]. rewrite decode_cons. cbv zeta.
  assert (0 <= c mod 64 < 64) by (apply Z.mod_pos_bound; lia).
  assert (0 <= (c / 64) mod 64 < 64) by (apply Z.mod_pos_bound; lia).
  assert (0 <= (c / 4096) mod 64 < 64) by (apply Z.mod_pos_bound; lia).
  assert (0 <= c / 262144 < 5) by (Z.div_mod_to_equations; lia).
  rewrite byte_to_of_Z by lia. split_ltb.
  rewrite !cont_payload by lia.
  replace ((0xF0 + c / 262144 - 0xF0) * 262144 + (c / 4096) mod 64 * 4096
           + (c / 64) mod 64 * 64 + c mod 64)
    with c by (Z.div_mod_to_equations; lia).
  split_ltb. reflexivity.
Qed.

(** [bytes.decode('utf-8')] applied to [str.encode('utf-8')] gives the
    text back. *)
Lemma decode_encode (s : str) (bs : bytes) :
  encode s = Some bs -> decode bs = Some s.
Proof.
  revert bs. induction s as [|c r IH]; intros bs.
  - intros [= <-]. reflexivity.
  - cbn [encode].
    destruct (encode_cp c) as [b|] eqn:Ec; [|discriminate].
    destruct (encode r) as [br|] eqn:Er; [|discriminate].
    intros [= <-]. rewrite (decode_encode_cp c b br Ec).
    rewrite (IH br eq_refl). reflexivity.
Qed.

Lemma encode_cp_scalar (c : Z) :
  is_scalar c = true <-> exists bs, encode_cp c = Some bs.
Proof.
  unfold is_scalar, encode_cp, is_surrogate. split.
  - intros H.
    destruct (Z.leb_spec 0 c); destruct (Z.ltb_spec c 0x110000);
      destruct (Z.leb_spec 0xD800 c); destruct (Z.ltb_spec c 0xE000);
      cbn in H; try discriminate; split_ltb; cbn; eauto.
  - intros [bs H]. revert H.
    destruct (Z.leb_spec 0 c); destruct (Z.ltb_spec c 0x110000);
      destruct (Z.leb_spec 0xD800 c); destruct (Z.ltb_spec c 0xE000);
      cbn; split_ltb; cbn; intros; try discriminate; try reflexivity.
Qed.

(** Encoding succeeds exactly on sequences of Unicode scalar values. *)
Lemma encode_total (s : str) :
  encodable s <-> exists bs, encode s = Some bs.
Proof.
  unfold encodable. induction s as [|c r IH].
  - split; [eexists; reflexivity | constructor].
  - split.
    + intros H. inversion H as [|? ? Hc Hr]; subst.
      apply encode_cp_scalar in Hc. destruct Hc as [b Hb].
      apply IH in Hr. destruct Hr as [br Hbr].
      exists (b ++ br). cbn [encode]. rewrite Hb, Hbr. reflexivity.
    + intros [bs H]. cbn [encode] in H.
      destruct (encode_cp c) as [b|] eqn:Ec; [|discriminate].
      destruct (encode r) as [br|] eqn:Er; [|discriminate].
      constructor.
      * apply encode_cp_scalar. eauto.
      * apply IH. eauto.
Qed.

Lemma cont_inv (b : byte) (z : Z) :
  cont b = Some z -> 0 <= z < 64 /\ b = byte_of_Z (0x80 + z).
Proof.
  unfold cont. pose proof (byte_to_Z_range b).
  destruct (Z.leb_spec 0x80 (byte_to_Z b));
    destruct (Z.ltb_spec (byte_to_Z b) 0xC0); cbn [andb]; try discriminate.
  take_some. split; [lia|].
  replace (0x80 + (byte_to_Z b - 0x80)) with (byte_to_Z b) by lia.
  symmetry. apply byte_of_to_Z.
Qed.

Lemma encode_cp_1 (z0 : Z) :
  0 <= z0 < 0x80 -> encode_cp z0 = Some [byte_of_Z z0].
Proof. intros. unfold encode_cp. split_ltb. reflexivity. Qed.

Lemma encode_cp_2 (z0 z1 : Z) :
  0xC2 <= z0 < 0xE0 -> 0 <= z1 < 64 ->
  encode_cp ((z0 - 0xC0) * 64 + z1) =
  Some [byte_of_Z z0; byte_of_Z (0x80 + z1)].
Proof.
  intros. unfold encode_cp. split_ltb.
  replace (((z0 - 0xC0) * 64 + z1) / 64) with (z0 - 0xC0)
    by (Z.div_mod_to_equations; lia).
  replace (((z0 - 0xC0) * 64 + z1) mod 64) with z1
    by (Z.div_mod_to_equations; lia).
  replace (0xC0 + (z0 - 0xC0)) with z0 by lia. reflexivity.
Qed.

Lemma encode_cp_3 (z0 z1 z2 : Z) :
  0xE0 <= z0 < 0xF0 -> 0 <= z1 < 64 -> 0 <= z2 < 64 ->
  let c := (z0 - 0xE0) * 4096 + z1 * 64 + z2 in
  (0x800 <=? c) && negb (is_surrogate c) = true ->
  encode_cp c =
  Some [byte_of_Z z0; byte_of_Z (0x80 + z1); byte_of_Z (0x80 + z2)].
Proof.
  intros H0 H1 H2 c. unfold is_surrogate.
  destruct (Z.leb_spec 0x800 c); cbn [andb]; [|discriminate].
  intros Hs. unfold encode_cp. split_ltb.
  unfold is_surrogate. destruct (_ && _); [discriminate|].
  replace (c / 4096) with (z0 - 0xE0)
    by (subst c; Z.div_mod_to_equations; lia).
  replace ((c / 64) mod 64) with z1
    by (subst c; Z.div_mod_to_equations; lia).
  replace (c mod 64) with z2
    by (subst c; Z.div_mod_to_equations; lia).
  replace (0xE0 + (z0 - 0xE0)) with z0 by lia. reflexivity.
Qed.

Lemma encode_cp_4 (z0 z1 z2 z3 : Z) :
  0xF0 <= z0 < 0xF5 -> 0 <= z1 < 64 -> 0 <= z2 < 64 -> 0 <= z3 < 64 ->
  let c := (z0 - 0xF0) * 262144 + z1 * 4096 + z2 * 64 + z3 in
  (0x10000 <=? c) && (c <? 0x110000) = true ->
  encode_cp c =
  Some [byte_of_Z z0; byte_of_Z (0x80 + z1); byte_of_Z (0x80 + z2);
        byte_of_Z (0x80 + z3)].
Proof.
  intros H0 H1 H2 H3 c.
  destruct (Z.leb_spec 0x10000 c); destruct (Z.ltb_spec c 0x110000);
    cbn [andb]; try discriminate.
  intros _. unfold encode_cp. split_ltb.
  replace (c / 262144) with (z0 - 0xF0)
    by (subst c; Z.div_mod_to_equations; lia).
  replace ((c / 4096) mod 64) with z1
    by (subst c; Z.div_mod_to_equations; lia).
  replace ((c / 64) mod 64) with z2
    by (subst c; Z.div_mod_to_equations; lia).
  replace (c mod 64) with z3
    by (subst c; Z.div_mod_to_equations; lia).
  replace (0xF0 + (z0 - 0xF0)) with z0 by lia. reflexivity.
Qed.

Lemma push_inv (c : Z) (r : option str) (s : str) :
  push c r = Some s -> exists s', r = Some s' /\ s = c :: s'.
Proof.
  destruct r as [s'|]; cbn; [|discriminate].
  take_some. eauto.
Qed.

Lemma encode_step (c : Z) (b br : bytes) (s' : str) :
  encode_cp c = Some b -> encode s' = Some br ->
  encode (c :: s') = Some (b ++ br).
Proof. intros Hc Hs. cbn [encode]. rewrite Hc, Hs. reflexivity. Qed.

Lemma encode_decode_bounded (n : nat) :
  forall (bs : bytes) (s : str),
    (length bs <= n)%nat -> decode bs = Some s -> encode s = Some bs.
Proof.
  induction n as [|n IH]; intros bs s Hn.
  - destruct bs; [|cbn in Hn; lia]. cbn. take_some. reflexivity.
  - destruct bs as [|b0 r0]; [cbn; take_some; reflexivity|].
    rewrite decode_cons. cbv zeta.
    pose proof (byte_to_Z_range b0) as R0. cbn [length] in Hn.
    destruct (Z.ltb_spec (byte_to_Z b0) 0x80) as [L1|L1].
    { intros Hp. apply push_inv in Hp. destruct Hp as (s' & Hd & ->).
      apply IH in Hd; [|lia].
      rewrite (encode_step _ [b0] r0 s'); auto.
      rewrite encode_cp_1 by lia. now rewrite byte_of_to_Z. }
    destruct (Z.ltb_spec (byte_to_Z b0) 0xC2) as [L2|L2]; [discriminate|].
    destruct (Z.ltb_spec (byte_to_Z b0) 0xE0) as [L3|L3].
    { destruct r0 as [|b1 r1]; [discriminate|].
      destruct (cont b1) as [z1|] eqn:C1; [|discriminate].
      apply cont_inv in C1. destruct C1 as [R1 ->].
      intros Hp. apply push_inv in Hp. destruct Hp as (s' & Hd & ->).
      cbn [length] in Hn. apply IH in Hd; [|lia].
      rewrite (encode_step _ [b0; byte_of_Z (0x80 + z1)] r1 s'); auto.
      rewrite encode_cp_2 by lia. now rewrite byte_of_to_Z. }
    destruct (Z.ltb_spec (byte_to_Z b0) 0xF0) as [L4|L4].
    { destruct r0 as [|b1 [|b2 r2]]; try discriminate.
      destruct (cont b1) as [z1|] eqn:C1; [|discriminate].
      destruct (cont b2) as [z2|] eqn:C2; [|discriminate].
      apply cont_inv in C1. destruct C1 as [R1 ->].
      apply cont_inv in C2. destruct C2 as [R2 ->].
      destruct (_ && _) eqn:Hc; [|discriminate].
      intros Hp. apply push_inv in Hp. destruct Hp as (s' & Hd & ->).
      cbn [length] in Hn. apply IH in Hd; [|lia].
      rewrite (encode_step _
                 [b0; byte_of_Z (0x80 + z1); byte_of_Z (0x80 + z2)] r2 s');
        auto.
      rewrite encode_cp_3 by (lia || exact Hc). now rewrite byte_of_to_Z. }
    destruct (Z.ltb_spec (byte_to_Z b0) 0xF5) as [L5|L5]; [|discriminate].
    destruct r0 as [|b1 [|b2 [|b3 r3]]]; try discriminate.
    destruct (cont b1) as [z1|] eqn:C1; [|discriminate].
    destruct (cont b2) as [z2|] eqn:C2; [|discriminate].
    destruct (cont b3) as [z3|] eqn:C3; [|discriminate].
    apply cont_inv in C1. destruct C1 as [R1 ->].
    apply cont_inv in C2. destruct C2 as [R2 ->].
    apply cont_inv in C3. destruct C3 as [R3 ->].
    destruct (_ && _) eqn:Hc; [|discriminate].
    intros Hp. apply push_inv in Hp. destruct Hp as (s' & Hd & ->).
    cbn [length] in Hn. apply IH in Hd; [|lia].
    rewrite (encode_step _
               [b0; byte_of_Z (0x80 + z1); byte_of_Z (0x80 + z2);
                byte_of_Z (0x80 + z3)] r3 s'); auto.
    rewrite encode_cp_4 by (lia || exact Hc). now rewrite byte_of_to_Z.
Qed.

(** The bytes that decode are exactly the encodings of text. *)
Lemma decode_iff_encode (bs : bytes) (s : str) :
  decode bs = Some s <-> encode s = Some bs.
Proof.
  split.
  - apply (encode_decode_bounded (length bs)). lia.
  - apply decode_encode.
Qed.

End Utf8Codec.

(** ** Python strings and dicts *)

Section PyFacts.
Import Py.

Lemma str_eqb_eq (a b : str) : str_eqb a b = true <-> a = b.
Proof.
  revert b. induction a as [|x a IH]; intros [|y b]; cbn;
    try (split; (reflexivity || discriminate)).
  rewrite andb_true_iff, Z.eqb_eq, IH.
  split; [intros [-> ->]; reflexivity | intros [= -> ->]; auto].
Qed.

Lemma str_eqb_refl (a : str) : str_eqb a a = true.
Proof. apply str_eqb_eq. reflexivity. Qed.

Lemma str_eqb_neq (a b : str) : str_eqb a b = false <-> a <> b.
Proof.
  rewrite <- str_eqb_eq. destruct (str_eqb a b); split; congruence.
Qed.

Lemma dict_get_None {V} (d : list (str * V)) (k : str) :
  dict_get d k = None <-> ~ In k (dict_keys d).
Proof.
  induction d as [|[k' v] d IH]; cbn.
  - tauto.
  - destruct (str_eqb k' k) eqn:E.
    + apply str_eqb_eq in E. split; [discriminate | tauto].
    + apply str_eqb_neq in E. rewrite IH. tauto.
Qed.

Lemma dict_get_In {V} (d : list (str * V)) (k : str) (v : V) :
  dict_get d k = Some v -> In (k, v) d.
Proof.
  induction d as [|[k' v'] d IH]; cbn; [discriminate|].
  destruct (str_eqb k' k) eqn:E.
  - apply str_eqb_eq in E. intros [= ->]. left. congruence.
  - auto.
Qed.

End PyFacts.

(** ** The provider table *)

Section Providers.
Import Py Vault.

(** The dict display evaluates without raising: [PROVIDERS] is its value. *)
Lemma PROVIDERS_evaluates : dict_of_names PROVIDER_NAMES = Some PROVIDERS.
Proof. vm_compute. reflexivity. Qed.

Lemma PROVIDERS_keys : dict_keys PROVIDERS = PROVIDER_NAMES.
Proof. vm_compute. reflexivity. Qed.

Lemma dict_of_names_spec (names : list str) (d : list (str * bytes)) :
  dict_of_names names = Some d ->
  dict_keys d = names /\
  Forall (fun kv => Web3_keccak (fst kv) = Some (snd kv)) d.
Proof.
  revert d. induction names as [|n r IH]; intros d; cbn [dict_of_names].
  - intros [= <-]. split; [reflexivity | constructor].
  - destruct (Web3_keccak n) as [h|] eqn:Eh; [|discriminate].
    destruct (dict_of_names r) as [t|]; [|discriminate].
    intros [= <-]. destruct (IH t eq_refl) as [Hk Hf].
    split; [unfold dict_keys in *; cbn [map fst]; now rewrite Hk
          | constructor; auto].
Qed.

Lemma PROVIDERS_hashed (name : str) (digest : bytes) :
  In (name, digest) PROVIDERS -> Web3_keccak name = Some digest.
Proof.
  intros Hin.
  destruct (dict_of_names_spec _ _ PROVIDERS_evaluates) as [_ Hf].
  rewrite Forall_forall in Hf. apply (Hf (name, digest) Hin).
Qed.

Lemma Web3_keccak_length (text : str) (digest : bytes) :
  Web3_keccak text = Some digest -> length digest = 32%nat.
Proof.
  unfold Web3_keccak. destruct (Utf8.encode text); cbn [option_map];
    [|discriminate].
  take_some. apply keccak256_length.
Qed.

(** A stored provider id is never falsy: the [if not provider_id] test
    separates exactly the names that are not in the table. *)
Lemma provider_id_nonempty (name : str) (digest : bytes) :
  dict_get PROVIDERS name = Some digest ->
  exists b r, digest = b :: r.
Proof.
  intros H. apply dict_get_In, PROVIDERS_hashed, Web3_keccak_length in H.
  destruct digest as [|b r]; [discriminate | eauto].
Qed.

Lemma known_provider (name : str) :
  In name PROVIDER_NAMES -> exists digest, dict_get PROVIDERS name = Some digest.
Proof.
  intros Hin. destruct (dict_get PROVIDERS name) as [d|] eqn:E; [eauto|].
  apply dict_get_None in E. rewrite PROVIDERS_keys in E. contradiction.
Qed.

Lemma unknown_provider (name : str) :
  ~ In name PROVIDER_NAMES <-> dict_get PROVIDERS name = None.
Proof. rewrite dict_get_None, PROVIDERS_keys. tauto. Qed.

(** The six digests, for reference. *)
Lemma PROVIDERS_digests :
  map (fun kv => hex_of_bytes (snd kv)) PROVIDERS =
  [ "e93e87a4d09f53d944d770088ea3d4f67b9d5a125971e031eb8b7eadac7bf70b";
    "e8308a234a3050c8f72a176d8b1f2a89ad171805469ce19256acd1451323ba44";
    "03653cf662af88f99b485cbb60226ddaa74a48703afce610f2e5158007640288";
    "9dd1441c3e54a4b8bf8dbf45cae01db30a02b77e616f29abdd769eae609100b9";
    "10ac5aec172c9b14058d3df032de57e6a91ccbd90f273bdb4f216ee981b236fd";
    "da600440f98fd2867b522a22a524c0fd4dae17b3a0edcad54175d9a0af89f632"
  ]%string.
Proof. vm_compute. reflexivity. Qed.

End Providers.

(** ** Running the functions of the client *)

Section Runs.
Import Py Vault.

Lemma get_client_run (w : World) :
  get_client w =
  match environ_PRIVATE_KEY w with
  | Some ((_ :: _) as key) =>
      match Account_from_key w key with
      | inl e => (Raised e, [EvEnviron; EvFromKey])
      | inr a =>
          match sapphire_wrap w (mkWeb3 RPC_URL None) a with
          | inl e => (Raised e, client_events a)
          | inr w3 => (Ok (w3, a), client_events a)
          end
      end
  | _ => (Raised MISSING_KEY, [EvEnviron])
  end.
Proof.
  unfold get_client, bind, os_environ_get_PRIVATE_KEY.
  destruct (environ_PRIVATE_KEY w) as [[|k0 k]|]; try reflexivity.
  unfold Account_from_key_, of_sum.
  destruct (Account_from_key w (k0 :: k)) as [e|a]; [reflexivity|].
  unfold Web3_HTTPProvider, sapphire_wrap_, of_sum.
  destruct (sapphire_wrap w _ a) as [e|w3]; reflexivity.
Qed.

(** [get_client] prints nothing, builds no proxy and sends no call; when
    it returns, its events are those of loading the signer, constructing
    the client and wrapping it, in this order. *)
Lemma get_client_events (w : World) (r : result (Web3 * Account))
      (t : list event) :
  get_client w = (r, t) ->
  printed t = [] /\ no_network t /\
  (forall w3 a, r = Ok (w3, a) -> t = client_events a).
Proof.
  rewrite get_client_run. unfold no_network.
  destruct (environ_PRIVATE_KEY w) as [[|k0 k]|].
  1,3: intros [= <- <-]; repeat split; discriminate.
  destruct (Account_from_key w _) as [e|a].
  { intros [= <- <-]. repeat split. discriminate. }
  destruct (sapphire_wrap w _ a) as [e|w3]; intros [= <- <-];
    repeat split; try discriminate.
  intros ? ? [= _ <-]. reflexivity.
Qed.

Lemma get_client_missing_key (w : World) :
  truthy (environ_PRIVATE_KEY w) = false ->
  get_client w = (Raised MISSING_KEY, [EvEnviron]).
Proof.
  rewrite get_client_run.
  destruct (environ_PRIVATE_KEY w) as [[|k0 k]|]; cbn;
    (reflexivity || discriminate).
Qed.

Lemma get_secret_run (w : World) (c o p : str) :
  get_secret c o p w =
  match get_client w with
  | (Raised e, t) => (Raised e, t)
  | (Ok (w3, a), t) =>
      let t1 := t ++ [EvPrint (lit "Caller: " ++ address a);
                      EvPrint (lit "Owner: " ++ o);
                      EvPrint (lit "Provider: " ++ p)] in
      match dict_get PROVIDERS p with
      | Some ((_ :: _) as pid) =>
          let ct := mkContract w3 c ABI in
          match eth_contract_check w w3 c ABI with
          | Some e => (Raised e, t1 ++ [EvContract c ABI])
          | None =>
              let t2 := t1 ++ [EvContract c ABI; EvCall ct (GetSecret o pid)] in
              match rpc_getSecret w ct o pid with
              | inl e => (Ok tt, t2 ++ [EvPrint (error_line e)])
              | inr b =>
                  match Utf8.decode b with
                  | Some s => (Ok tt, t2 ++ [EvPrint (secret_line s)])
                  | None =>
                      (Ok tt,
                       t2 ++ [EvPrint (error_line
                                (mkExn DecodeError
                                   (UnicodeDecodeError_str w b)))])
                  end
              end
          end
      | _ => (Ok tt, t1 ++ [EvPrint unknown_provider_line])
      end
  end.
Proof.
  unfold get_secret, bind at 1.
  destruct (get_client w) as [[[w3 a]|e] t]; [|reflexivity].
  cbv zeta. unfold bind, print, emit.
  destruct (dict_get PROVIDERS p) as [[|b0 pid]|];
    try (cbn [app]; rewrite <- ?app_assoc; reflexivity).
  unfold eth_contract.
  destruct (eth_contract_check w w3 c ABI) as [e|];
    [cbn [app]; rewrite <- ?app_assoc; reflexivity|].
  unfold try_except, bind, call_getSecret, of_sum.
  destruct (rpc_getSecret w _ o _) as [e|b];
    [cbn [app]; rewrite <- ?app_assoc; reflexivity|].
  unfold decode_utf8.
  destruct (Utf8.decode b) as [s|];
    cbn [app]; rewrite <- ?app_assoc; reflexivity.
Qed.

Lemma get_info_run (w : World) (c o p : str) :
  get_info c o p w =
  match get_client w with
  | (Raised e, t) => (Raised e, t)
  | (Ok (w3, a), t) =>
      let t1 := t ++ [EvPrint (lit "Caller: " ++ address a)] in
      match dict_get PROVIDERS p with
      | Some ((_ :: _) as pid) =>
          let ct := mkContract w3 c ABI in
          match eth_contract_check w w3 c ABI with
          | Some e => (Raised e, t1 ++ [EvContract c ABI])
          | None =>
              let t2 :=
                t1 ++ [EvContract c ABI; EvCall ct (GetSecretInfo o pid)] in
              match rpc_getSecretInfo w ct o pid with
              | inl e => (Ok tt, t2 ++ [EvPrint (error_line e)])
              | inr (version, exists_, isAllowed) =>
                  (Ok tt,
                   t2 ++ [EvPrint (nl ++ lit "Version: " ++ str_of_int version);
                          EvPrint (lit "Exists: " ++ str_of_bool exists_);
                          EvPrint (lit "IsAllowed: " ++ str_of_bool isAllowed
                                   ++ lit "  <-- Should be True with signed query")])
              end
          end
      | _ => (Ok tt, t1 ++ [EvPrint unknown_provider_line])
      end
  end.
Proof.
  unfold get_info, bind at 1.
  destruct (get_client w) as [[[w3 a]|e] t]; [|reflexivity].
  cbv zeta. unfold bind, print, emit.
  destruct (dict_get PROVIDERS p) as [[|b0 pid]|];
    try (cbn [app]; rewrite <- ?app_assoc; reflexivity).
  unfold eth_contract.
  destruct (eth_contract_check w w3 c ABI) as [e|];
    [cbn [app]; rewrite <- ?app_assoc; reflexivity|].
  unfold try_except, bind, call_getSecretInfo, of_sum.
  destruct (rpc_getSecretInfo w _ o _) as [e|[[v ex] al]];
    cbn [app]; rewrite <- ?app_assoc; reflexivity.
Qed.

Lemma whoami_run (w : World) (c : str) :
  whoami c w =
  match get_client w with
  | (Raised e, t) => (Raised e, t)
  | (Ok (w3, a), t) =>
      let t1 := t ++ [EvPrint (lit "Expected: " ++ address a)] in
      let ct := mkContract w3 c abi_with_whoami in
      match eth_contract_check w w3 c abi_with_whoami with
      | Some e => (Raised e, t1 ++ [EvContract c abi_with_whoami])
      | None =>
          let t2 := t1 ++ [EvContract c abi_with_whoami; EvCall ct WhoAmI] in
          match rpc_whoAmI w ct with
          | inl e => (Ok tt, t2 ++ [EvPrint (error_line e)])
          | inr r =>
              (Ok tt,
               t2 ++ [EvPrint (lit "Returned: " ++ r);
                      EvPrint
                        (if str_eqb r (address a) then VERDICT_SIGNED
                         else if str_eqb r ZERO_ADDRESS then VERDICT_UNSIGNED
                         else VERDICT_UNEXPECTED)])
          end
      end
  end.
Proof.
  unfold whoami, bind at 1.
  destruct (get_client w) as [[[w3 a]|e] t]; [|reflexivity].
  cbv zeta. unfold bind, print, emit, eth_contract.
  destruct (eth_contract_check w w3 c abi_with_whoami) as [e|];
    [cbn [app]; rewrite <- ?app_assoc; reflexivity|].
  unfold try_except, bind, call_whoAmI, of_sum.
  destruct (rpc_whoAmI w _) as [e|r];
    [cbn [app]; rewrite <- ?app_assoc; reflexivity|].
  destruct (str_eqb r (address a)); [|destruct (str_eqb r ZERO_ADDRESS)];
    cbn [app]; rewrite <- ?app_assoc; reflexivity.
Qed.

(** What [main] does, by the shape of [sys.argv]. *)
Lemma main_recognized (argv : list str) :
  main argv =
  match recognized_by_spec argv with
  | Some cmd => run_command cmd
  | None => print USAGE
  end.
Proof.
  unfold main, recognized_by_spec.
  destruct argv as [|a0 [|a1 [|a2 [|a3 [|a4 [|a5 r]]]]]];
    cbn [length Nat.ltb Nat.leb Nat.eqb nth andb]; try reflexivity.
  - rewrite !andb_false_r. reflexivity.
  - rewrite !andb_false_r, andb_true_r.
    destruct (str_eqb a1 (lit "whoami")); reflexivity.
  - rewrite !andb_false_r. reflexivity.
  - rewrite !andb_true_r, andb_false_r.
    destruct (str_eqb a1 (lit "get-secret")); [reflexivity|].
    destruct (str_eqb a1 (lit "get-info")); reflexivity.
  - rewrite !andb_false_r. reflexivity.
Qed.

Lemma recognized_argv_of (prog : str) (cmd : command) :
  recognized_by_spec (argv_of prog cmd) = Some cmd.
Proof. destruct cmd; vm_compute; reflexivity. Qed.

(** [main] on the argument vector of a command runs that command. *)
Lemma main_argv_of (prog : str) (cmd : command) :
  main (argv_of prog cmd) = run_command cmd.
Proof. rewrite main_recognized, recognized_argv_of. reflexivity. Qed.

Lemma recognized_inv (argv : list str) (cmd : command) :
  recognized_by_spec argv = Some cmd -> exists prog, argv = argv_of prog cmd.
Proof.
  unfold recognized_by_spec.
  destruct argv as [|a0 [|a1 [|a2 [|a3 [|a4 [|a5 r]]]]]]; try discriminate.
  - destruct (str_eqb a1 (lit "whoami")) eqn:E; [|discriminate].
    apply str_eqb_eq in E. subst a1. intros [= <-]. exists a0. reflexivity.
  - destruct (str_eqb a1 (lit "get-secret")) eqn:E1.
    { apply str_eqb_eq in E1. subst a1. intros [= <-]. exists a0.
      reflexivity. }
    destruct (str_eqb a1 (lit "get-info")) eqn:E2; [|discriminate].
    apply str_eqb_eq in E2. subst a1. intros [= <-]. exists a0. reflexivity.
Qed.

End Runs.

(** ** The command-line driver *)

Section Driver.
Import Py Vault.

Lemma run_command_client_raised (w : World) (cmd : command) (e : exn)
      (t : list event) :
  get_client w = (Raised e, t) -> run_command cmd w = (Raised e, t).
Proof.
  intros H. destruct cmd; cbn [run_command];
    [rewrite get_secret_run | rewrite get_info_run | rewrite whoami_run];
    rewrite H; reflexivity.
Qed.

(** Every command starts by reading PRIVATE_KEY. *)
Lemma run_command_starts (w : World) (cmd : command) :
  exists t, snd (run_command cmd w) = EvEnviron :: t.
Proof.
  assert (G : exists r t, get_client w = (r, EvEnviron :: t)).
  { rewrite get_client_run.
    destruct (environ_PRIVATE_KEY w) as [[|k0 k]|]; eauto.
    destruct (Account_from_key w _) as [e|a]; eauto.
    unfold client_events.
    destruct (sapphire_wrap w _ a) as [e|w3]; eauto. }
  destruct G as (r & t & G).
  destruct cmd; cbn [run_command];
    [rewrite get_secret_run | rewrite get_info_run | rewrite whoami_run];
    rewrite G; destruct r as [[w3 a]|e]; cbv beta iota zeta;
    repeat match goal with
           | |- context [match ?x with _ => _ end] => destruct x
           end;
    cbn [snd]; rewrite <- ?app_assoc; cbn [app]; eauto.
Qed.

(** C3. Missing key: for every command invocation run with PRIVATE_KEY
    unset or empty, the command aborts with the configuration error
    "PRIVATE_KEY environment variable required" before any contract
    proxy is built or any call is sent; nothing else has happened than
    reading the variable. *)
Theorem C3_missing_private_key_aborts (w : World) (prog : str)
        (cmd : command) :
  truthy (environ_PRIVATE_KEY w) = false ->
  main (argv_of prog cmd) w = (Raised MISSING_KEY, [EvEnviron]) /\
  exn_kind_of MISSING_KEY = ConfigError /\
  exn_str MISSING_KEY = lit "PRIVATE_KEY environment variable required" /\
  no_network (snd (main (argv_of prog cmd) w)) /\
  no_call (snd (main (argv_of prog cmd) w)) /\
  exit_status (fst (main (argv_of prog cmd) w)) = 1.
Proof.
  intros H. rewrite main_argv_of.
  rewrite (run_command_client_raised w cmd _ _ (get_client_missing_key w H)).
  repeat split.
  intros c f [E|[]]. discriminate.
Qed.

Lemma C3_missing_private_key_aborts_witness :
  truthy (environ_PRIVATE_KEY world_no_key) = false /\
  main (argv_of sample_prog (CmdWhoami sample_contract)) world_no_key
  = (Raised MISSING_KEY, [EvEnviron]).
Proof.
  split; [reflexivity|].
  apply (C3_missing_private_key_aborts world_no_key sample_prog
           (CmdWhoami sample_contract)).
  reflexivity.
Defined.

(** C8. Dispatch: [main] runs a command exactly when the argument vector
    is the program name followed by get-secret or get-info and exactly
    three further arguments, or by whoami and exactly one; the command
    then starts (its first action is reading PRIVATE_KEY).  For every
    other argument vector, [main] prints the usage text, does nothing
    else, and returns normally, with exit status 0. *)
Theorem C8_main_dispatch (argv : list str) :
  match recognized_by_spec argv with
  | Some cmd =>
      (exists prog, argv = argv_of prog cmd) /\
      main argv = run_command cmd /\
      (forall w, exists t, snd (main argv w) = EvEnviron :: t)
  | None =>
      ~ (exists prog cmd, argv = argv_of prog cmd) /\
      (forall w, main argv w = (Ok tt, [EvPrint USAGE]) /\
                 exit_status (fst (main argv w)) = 0)
  end.
Proof.
  rewrite main_recognized.
  destruct (recognized_by_spec argv) as [cmd|] eqn:E.
  - split; [apply recognized_inv; exact E|].
    split; [reflexivity|]. intros w. apply run_command_starts.
  - split.
    + intros (prog & cmd & ->). rewrite recognized_argv_of in E.
      discriminate.
    + intros w. split; reflexivity.
Qed.



End Driver.

(** ** Errors and unknown providers *)

Section Errors.
Import Py Vault.

Lemma no_network_app (t1 t2 : list event) :
  no_network t1 -> no_network t2 -> no_network (t1 ++ t2).
Proof.
  unfold no_network. intros H1 H2. rewrite forallb_app, H1, H2. reflexivity.
Qed.

(** C1, as stated, fails: with PRIVATE_KEY unset, the ConfigError raised
    while the signer is loaded leaves [main] uncaught, and nothing is
    printed. *)
Lemma C1_counterexample_config_error_propagates :
  let r := main (argv_of sample_prog (CmdWhoami sample_contract))
                world_no_key in
  r = (Raised MISSING_KEY, [EvEnviron]) /\
  exn_kind_of MISSING_KEY = ConfigError /\
  printed (snd r) = [] /\
  ~ (exists t, r = (Ok tt, t)).
Proof.
  cbv zeta. rewrite main_argv_of. cbn [run_command]. rewrite whoami_run.
  repeat split. intros [t H]. discriminate.
Qed.

(** C1, amended. For every command invocation: an exception raised by
    [get_client] (loading the signer, constructing and wrapping the
    client) is not caught, it leaves [main], and nothing has been
    printed; an exception raised while the contract proxy is built is
    not caught either, it leaves [main] after the lines the command
    prints before building the proxy, and no error line is printed for
    it.  Once the proxy is built, [main] returns normally whatever the
    call does, and an exception of any kind raised by the call or by the
    decoding of its result is caught and rendered by one print, the
    last event of the run, of the error line. *)
Theorem C1_call_errors_caught_client_errors_propagate (w : World)
        (prog : str) (cmd : command) :
  (forall e t,
      get_client w = (Raised e, t) ->
      main (argv_of prog cmd) w = (Raised e, t) /\ printed t = []) /\
  (forall w3 a t e,
      get_client w = (Ok (w3, a), t) ->
      proxy_reached cmd ->
      eth_contract_check w w3 (command_contract cmd) (command_abi cmd)
        = Some e ->
      main (argv_of prog cmd) w =
        (Raised e,
         t ++ Proxy.lines_before_proxy cmd a ++
         [EvContract (command_contract cmd) (command_abi cmd)])) /\
  (forall w3 a t,
      get_client w = (Ok (w3, a), t) ->
      eth_contract_check w w3 (command_contract cmd) (command_abi cmd)
        = None ->
      exists t',
        main (argv_of prog cmd) w = (Ok tt, t') /\
        forall e,
          call_step_raises w w3 cmd e ->
          exists f,
            t' = t ++ Proxy.lines_before_proxy cmd a ++
                 [EvContract (command_contract cmd) (command_abi cmd);
                  EvCall (mkContract w3 (command_contract cmd)
                            (command_abi cmd)) f;
                  EvPrint (error_line e)]).
Proof.
  rewrite main_argv_of. split; [|split].
  - intros e t G. split; [apply run_command_client_raised; exact G|].
    apply (get_client_events w _ _ G).
  - intros w3 a t e G Hr Hc.
    destruct cmd as [c o p|c o p|c]; cbn [run_command];
      cbn [command_contract command_abi proxy_reached
           Proxy.lines_before_proxy] in Hr, Hc |- *.
    + rewrite get_secret_run, G. cbv beta iota zeta.
      destruct (known_provider p Hr) as [pid Hp].
      destruct (provider_id_nonempty p pid Hp) as (b & r & ->).
      rewrite Hp, Hc. rewrite <- ?app_assoc. reflexivity.
    + rewrite get_info_run, G. cbv beta iota zeta.
      destruct (known_provider p Hr) as [pid Hp].
      destruct (provider_id_nonempty p pid Hp) as (b & r & ->).
      rewrite Hp, Hc. rewrite <- ?app_assoc. reflexivity.
    + rewrite whoami_run, G. cbv beta iota zeta. rewrite Hc.
      rewrite <- ?app_assoc. reflexivity.
  - intros w3 a t G Hc.
    destruct cmd as [c o p|c o p|c]; cbn [run_command];
      cbn [command_contract command_abi call_step_raises
           Proxy.lines_before_proxy] in Hc |- *.
    + rewrite get_secret_run, G. cbv beta iota zeta.
      destruct (dict_get PROVIDERS p) as [[|b0 pid]|] eqn:Hp.
      1,3: eexists; split; [reflexivity|];
        intros e (pid' & Hp' & _);
        try discriminate;
        destruct (provider_id_nonempty p _ Hp) as (? & ? & ?); discriminate.
      rewrite Hc.
      destruct (rpc_getSecret w _ o _) as [e0|bs] eqn:Hr.
      * eexists; split; [reflexivity|].
        intros e (pid' & Hp' & [He|(b' & He & _)]);
          apply some_inj in Hp'; subst pid'; rewrite Hr in He;
          [|discriminate].
        apply (f_equal (fun x => match x with inl y => y | inr _ => e end))
          in He. cbv beta iota in He. subst e0.
        eexists. rewrite <- ?app_assoc. reflexivity.
      * destruct (Utf8.decode bs) as [s|] eqn:Hd.
        -- eexists; split; [reflexivity|].
           intros e (pid' & Hp' & [He|(b' & He & Hn & _)]);
             apply some_inj in Hp'; subst pid'; rewrite Hr in He;
             [discriminate|].
           assert (b' = bs) by congruence. subst b'. congruence.
        -- eexists; split; [reflexivity|].
           intros e (pid' & Hp' & [He|(b' & He & Hn & ->)]);
             apply some_inj in Hp'; subst pid'; rewrite Hr in He;
             [discriminate|].
           assert (b' = bs) by congruence. subst b'.
           eexists. rewrite <- ?app_assoc. reflexivity.
    + rewrite get_info_run, G. cbv beta iota zeta.
      destruct (dict_get PROVIDERS p) as [[|b0 pid]|] eqn:Hp.
      1,3: eexists; split; [reflexivity|];
        intros e (pid' & Hp' & _);
        try discriminate;
        destruct (provider_id_nonempty p _ Hp) as (? & ? & ?); discriminate.
      rewrite Hc.
      destruct (rpc_getSecretInfo w _ o _) as [e0|[[v ex] al]] eqn:Hr.
      * eexists; split; [reflexivity|].
        intros e (pid' & Hp' & He).
        apply some_inj in Hp'; subst pid'; rewrite Hr in He.
        assert (e0 = e) by congruence. subst e0.
        eexists. rewrite <- ?app_assoc. reflexivity.
      * eexists; split; [reflexivity|].
        intros e (pid' & Hp' & He).
        apply some_inj in Hp'; subst pid'; rewrite Hr in He. discriminate.
    + rewrite whoami_run, G. cbv beta iota zeta. rewrite Hc.
      destruct (rpc_whoAmI w _) as [e0|r] eqn:Hr.
      * eexists; split; [reflexivity|].
        intros e He. assert (e0 = e) by congruence. subst e0.
        eexists. rewrite <- ?app_assoc. reflexivity.
      * eexists; split; [reflexivity|]. intros e He. discriminate.
Qed.

Lemma C1_call_errors_caught_witness :
  get_client world_revert = (Ok (w3_signed, sample_account),
                             client_events sample_account) /\
  eth_contract_check world_revert w3_signed sample_contract ABI = None /\
  call_step_raises world_revert w3_signed
    (CmdGetSecret sample_contract sample_owner (lit "OPENAI_API_KEY"))
    revert_exn /\
  exists t,
    main (argv_of sample_prog
            (CmdGetSecret sample_contract sample_owner
               (lit "OPENAI_API_KEY"))) world_revert
    = (Ok tt, t ++ [EvPrint (error_line revert_exn)]).
Proof.
  assert (G : get_client world_revert
              = (Ok (w3_signed, sample_account),
                 client_events sample_account))
    by (vm_compute; reflexivity).
  assert (S : call_step_raises world_revert w3_signed
                (CmdGetSecret sample_contract sample_owner
                   (lit "OPENAI_API_KEY")) revert_exn).
  { exists openai_id. split; [vm_compute; reflexivity|].
    left. reflexivity. }
  split; [exact G|]. split; [reflexivity|]. split; [exact S|].
  destruct (proj2 (proj2 (C1_call_errors_caught_client_errors_propagate
                            world_revert sample_prog
                            (CmdGetSecret sample_contract sample_owner
                               (lit "OPENAI_API_KEY"))))
              w3_signed sample_account _ G eq_refl) as (t' & Hm & He).
  destruct (He revert_exn S) as [f Ht].
  rewrite Hm, Ht.
  eexists. f_equal.
  rewrite !app_assoc.
  change [EvContract (command_contract
                        (CmdGetSecret sample_contract sample_owner
                           (lit "OPENAI_API_KEY")))
            (command_abi
               (CmdGetSecret sample_contract sample_owner
                  (lit "OPENAI_API_KEY")));
          EvCall (mkContract w3_signed
                    (command_contract
                       (CmdGetSecret sample_contract sample_owner
                          (lit "OPENAI_API_KEY")))
                    (command_abi
                       (CmdGetSecret sample_contract sample_owner
                          (lit "OPENAI_API_KEY")))) f;
          EvPrint (error_line revert_exn)]
    with ([EvContract sample_contract ABI;
           EvCall (mkContract w3_signed sample_contract ABI) f]
          ++ [EvPrint (error_line revert_exn)]).
  rewrite app_assoc. reflexivity.
Defined.

(** C2, as stated, fails: with PRIVATE_KEY unset and an unknown provider
    name, get-secret raises the configuration error and the list of
    valid provider names is not printed. *)
Lemma C2_counterexample_list_not_printed :
  ~ In (lit "FOO") PROVIDER_NAMES /\
  get_secret sample_contract sample_owner (lit "FOO") world_no_key
  = (Raised MISSING_KEY, [EvEnviron]) /\
  ~ In unknown_provider_line
       (printed (snd (get_secret sample_contract sample_owner (lit "FOO")
                        world_no_key))).
Proof.
  assert (Hp : ~ In (lit "FOO") PROVIDER_NAMES).
  { apply unknown_provider. vm_compute. reflexivity. }
  assert (H : get_secret sample_contract sample_owner (lit "FOO")
                world_no_key = (Raised MISSING_KEY, [EvEnviron])).
  { apply (run_command_client_raised world_no_key
             (CmdGetSecret sample_contract sample_owner (lit "FOO"))).
    reflexivity. }
  split; [exact Hp|]. split; [exact H|]. rewrite H. intros [].
Qed.

Lemma unknown_provider_line_lists_names :
  unknown_provider_line =
  lit "Unknown provider. Valid: " ++ join (lit ", ") PROVIDER_NAMES.
Proof. unfold unknown_provider_line. rewrite PROVIDERS_keys. reflexivity. Qed.

(** C2, amended. For every get-secret or get-info invocation whose
    provider argument is not one of the six known names, no contract
    proxy is built and no call is sent; when [get_client] returns, the
    command prints the line listing the valid provider names as its
    last action and returns; when [get_client] raises, the exception
    leaves the command, nothing is printed, and so the list is not. *)
Theorem C2_unknown_provider (w : World) (c o p : str) :
  ~ In p PROVIDER_NAMES ->
  no_network (snd (get_secret c o p w)) /\
  no_network (snd (get_info c o p w)) /\
  (forall w3 a t,
      get_client w = (Ok (w3, a), t) ->
      get_secret c o p w =
        (Ok tt, t ++ [EvPrint (lit "Caller: " ++ address a);
                      EvPrint (lit "Owner: " ++ o);
                      EvPrint (lit "Provider: " ++ p);
                      EvPrint unknown_provider_line]) /\
      get_info c o p w =
        (Ok tt, t ++ [EvPrint (lit "Caller: " ++ address a);
                      EvPrint unknown_provider_line])) /\
  (forall e t,
      get_client w = (Raised e, t) ->
      get_secret c o p w = (Raised e, t) /\
      get_info c o p w = (Raised e, t) /\
      printed t = [] /\
      ~ In (EvPrint unknown_provider_line) t) /\
  unknown_provider_line =
    lit "Unknown provider. Valid: " ++ join (lit ", ") PROVIDER_NAMES.
Proof.
  intros Hp. apply unknown_provider in Hp.
  rewrite get_secret_run, get_info_run, Hp.
  destruct (get_client w) as [[[w3 a]|e] t] eqn:G;
    destruct (get_client_events w _ _ G) as (Hpr & Hn & _);
    cbv beta iota zeta; cbn [snd]; rewrite <- ?app_assoc; cbn [app].
  - split; [apply no_network_app; [exact Hn | reflexivity]|].
    split; [apply no_network_app; [exact Hn | reflexivity]|].
    split; [|split; [|apply unknown_provider_line_lists_names]].
    + intros w3' a' t' E.
      assert (a' = a /\ t' = t) as [-> ->] by (split; congruence).
      split; reflexivity.
    + intros ? ? E. discriminate.
  - split; [exact Hn|]. split; [exact Hn|].
    split; [|split; [|apply unknown_provider_line_lists_names]].
    + intros ? ? ? E. discriminate.
    + intros e' t' E.
      assert (e' = e /\ t' = t) as [-> ->] by (split; congruence).
      repeat split; try exact Hpr.
      intros Hin.
      assert (Hx : In unknown_provider_line (printed t)).
      { unfold printed. apply in_flat_map.
        exists (EvPrint unknown_provider_line).
        split; [exact Hin | left; reflexivity]. }
      rewrite Hpr in Hx. exact Hx.
Qed.

Lemma C2_unknown_provider_witness :
  ~ In (lit "FOO") PROVIDER_NAMES /\
  get_client world_signed = (Ok (w3_signed, sample_account),
                             client_events sample_account) /\
  get_info sample_contract sample_owner (lit "FOO") world_signed =
    (Ok tt, client_events sample_account ++
            [EvPrint (lit "Caller: " ++ address sample_account);
             EvPrint unknown_provider_line]).
Proof.
  assert (Hp : ~ In (lit "FOO") PROVIDER_NAMES).
  { apply unknown_provider. vm_compute. reflexivity. }
  assert (G : get_client world_signed
              = (Ok (w3_signed, sample_account),
                 client_events sample_account))
    by (vm_compute; reflexivity).
  split; [exact Hp|]. split; [exact G|].
  apply (proj1 (proj2 (proj2 (C2_unknown_provider world_signed
                                sample_contract sample_owner (lit "FOO")
                                Hp))) w3_signed sample_account _ G).
Defined.

End Errors.

(** ** Provider identifiers *)

Section ProviderIds.
Import Py Vault.

(** C4. The table has the six provider names as its keys, and for each
    of them the stored ProviderId is the Keccak-256 digest of the UTF-8
    bytes of the name, 32 bytes long: recomputing the hash of the name
    gives the stored value. *)
Theorem C4_provider_ids_are_keccak_of_names :
  dict_keys PROVIDERS = PROVIDER_NAMES /\
  length PROVIDER_NAMES = 6%nat /\
  forall name,
    In name PROVIDER_NAMES ->
    exists name_bytes digest,
      Utf8.encode name = Some name_bytes /\
      dict_get PROVIDERS name = Some digest /\
      digest = Keccak.keccak256 name_bytes /\
      Web3_keccak name = Some digest /\
      length digest = 32%nat.
Proof.
  split; [apply PROVIDERS_keys|]. split; [reflexivity|].
  intros name Hin.
  destruct (known_provider name Hin) as [digest Hd].
  pose proof (PROVIDERS_hashed _ _ (dict_get_In _ _ _ Hd)) as Hk.
  pose proof (Web3_keccak_length _ _ Hk) as Hl.
  unfold Web3_keccak in Hk.
  destruct (Utf8.encode name) as [nb|] eqn:En; [|discriminate].
  cbn [option_map] in Hk. apply some_inj in Hk.
  exists nb, digest. repeat split; auto.
  unfold Web3_keccak. rewrite En. cbn [option_map]. now rewrite Hk.
Qed.

Lemma C4_provider_ids_witness :
  In (lit "OPENAI_API_KEY") PROVIDER_NAMES /\
  dict_get PROVIDERS (lit "OPENAI_API_KEY") = Some openai_id.
Proof.
  assert (Hin : In (lit "OPENAI_API_KEY") PROVIDER_NAMES).
  { right. left. reflexivity. }
  split; [exact Hin|].
  destruct (proj2 (proj2 C4_provider_ids_are_keccak_of_names)
              (lit "OPENAI_API_KEY") Hin)
    as (nb & digest & En & Hd & Hk & _).
  vm_compute in En. apply some_inj in En. subst nb.
  rewrite Hd, Hk. reflexivity.
Defined.

End ProviderIds.

(** ** The commands against the network *)

Section Network.
Import Py Vault.

Lemma no_network_filters (t : list event) :
  no_network t -> Trace.calls t = [] /\ Trace.proxies t = [].
Proof.
  unfold no_network, Trace.calls, Trace.proxies.
  induction t as [|e t IH]; [split; reflexivity|].
  cbn [forallb filter]. rewrite andb_true_iff. intros [He Ht].
  destruct (IH Ht) as [-> ->]. destruct e; cbn in He |- *;
    (discriminate || split; reflexivity).
Qed.

Lemma abi_with_whoami_collides :
  Proxy.has_colliding_selectors abi_with_whoami = true.
Proof. vm_compute. reflexivity. Qed.

Lemma base_ABI_accepted : Proxy.has_colliding_selectors ABI = false.
Proof. vm_compute. reflexivity. Qed.

Lemma whoami_fails_at_proxy (w : World) (c : str) (w3 : Web3)
      (a : Account) (t : list event) :
  Proxy.validates_abi w ->
  get_client w = (Ok (w3, a), t) ->
  exists e,
    eth_contract_check w w3 c abi_with_whoami = Some e /\
    whoami c w =
      (Raised e, t ++ [EvPrint (lit "Expected: " ++ address a);
                       EvContract c abi_with_whoami]).
Proof.
  intros Hv G.
  destruct (eth_contract_check w w3 c abi_with_whoami) as [e|] eqn:Hc.
  - exists e. split; [reflexivity|].
    rewrite whoami_run, G. cbv beta iota zeta. rewrite Hc.
    rewrite <- app_assoc. reflexivity.
  - exfalso. exact (Hv w3 c _ abi_with_whoami_collides Hc).
Qed.

(** C5, on the code: whoami binds an ABI in which whoAmI is declared
    twice, which the contract proxy rejects for its colliding selectors;
    the proxy is built outside the [try], so for every contract address
    and every signer that [get_client] returns, whoami ends with that
    exception right after the Expected line: no call is sent, no
    returned address and no verdict is printed, whatever the contract
    would have answered. *)
Theorem C5_whoami_fails_before_the_call (w : World) (c : str) (w3 : Web3)
        (a : Account) (t : list event) :
  Proxy.validates_abi w ->
  get_client w = (Ok (w3, a), t) ->
  Proxy.has_colliding_selectors abi_with_whoami = true /\
  exists e,
    eth_contract_check w w3 c abi_with_whoami = Some e /\
    whoami c w =
      (Raised e, t ++ [EvPrint (lit "Expected: " ++ address a);
                       EvContract c abi_with_whoami]) /\
    printed (snd (whoami c w)) = [lit "Expected: " ++ address a] /\
    Trace.calls (snd (whoami c w)) = [].
Proof.
  intros Hv G. split; [exact abi_with_whoami_collides|].
  destruct (whoami_fails_at_proxy w c w3 a t Hv G) as (e & Hc & Hrun).
  exists e. split; [exact Hc|]. split; [exact Hrun|].
  destruct (get_client_events w _ _ G) as (Hp & Hn & _).
  rewrite Hrun. cbn [snd]. split.
  - unfold printed in *. rewrite flat_map_app, Hp. reflexivity.
  - unfold Trace.calls. rewrite filter_app.
    destruct (no_network_filters t Hn) as [Hcalls _].
    unfold Trace.calls in Hcalls. rewrite Hcalls. reflexivity.
Qed.

Lemma validating_world_validates : Proxy.validates_abi Proxy.world_validating.
Proof.
  intros w3 addr abi H. cbn [Proxy.world_validating eth_contract_check].
  unfold Proxy.web3_validate_abi. rewrite H. discriminate.
Qed.

Lemma C5_whoami_fails_witness :
  Proxy.validates_abi Proxy.world_validating /\
  get_client Proxy.world_validating
    = (Ok (w3_signed, sample_account), client_events sample_account) /\
  whoami sample_contract Proxy.world_validating =
    (Raised Proxy.collision_exn,
     client_events sample_account ++
     [EvPrint (lit "Expected: " ++ address sample_account);
      EvContract sample_contract abi_with_whoami]).
Proof.
  assert (G : get_client Proxy.world_validating
              = (Ok (w3_signed, sample_account),
                 client_events sample_account))
    by (vm_compute; reflexivity).
  split; [exact validating_world_validates|]. split; [exact G|].
  destruct (proj2 (C5_whoami_fails_before_the_call Proxy.world_validating
                     sample_contract w3_signed sample_account _
                     validating_world_validates G))
    as (e & Hc & Hrun & _).
  rewrite Hrun. f_equal. f_equal.
  cbn [Proxy.world_validating eth_contract_check] in Hc.
  unfold Proxy.web3_validate_abi in Hc.
  rewrite abi_with_whoami_collides in Hc. symmetry. apply some_inj.
  symmetry. exact Hc.
Defined.

(** C6. Round trip of a secret: when the bytes stored in the record are
    the UTF-8 encoding of a text, they decode to that text and get-secret
    prints it unaltered, in its success line, as its last action. *)
Theorem C6_secret_round_trip (w : World) (c o p : str) (pid : bytes)
        (w3 : Web3) (a : Account) (t : list event) (s : str) (bs : bytes) :
  get_client w = (Ok (w3, a), t) ->
  dict_get PROVIDERS p = Some pid ->
  eth_contract_check w w3 c ABI = None ->
  Utf8.encode s = Some bs ->
  rpc_getSecret w (mkContract w3 c ABI) o pid = inr bs ->
  Utf8.decode bs = Some s /\
  get_secret c o p w =
    (Ok tt, t ++ [EvPrint (lit "Caller: " ++ address a);
                  EvPrint (lit "Owner: " ++ o);
                  EvPrint (lit "Provider: " ++ p);
                  EvContract c ABI;
                  EvCall (mkContract w3 c ABI) (GetSecret o pid);
                  EvPrint (nl ++ lit "✓ Secret: " ++ s)]).
Proof.
  intros G Hp Hc He Hr. apply decode_encode in He. split; [exact He|].
  destruct (provider_id_nonempty p pid Hp) as (b0 & r & ->).
  rewrite get_secret_run, G. cbv beta iota zeta.
  rewrite Hp, Hc, Hr, He. rewrite <- !app_assoc. reflexivity.
Qed.

Lemma C6_secret_round_trip_witness :
  Utf8.encode (lit "hello-key-123") = Some hello_bytes /\
  printed (snd (get_secret sample_contract sample_owner
                  (lit "OPENAI_API_KEY") world_signed)) =
    [lit "Caller: " ++ address sample_account;
     lit "Owner: " ++ sample_owner;
     lit "Provider: " ++ lit "OPENAI_API_KEY";
     nl ++ lit "✓ Secret: " ++ lit "hello-key-123"].
Proof.
  assert (E : Utf8.encode (lit "hello-key-123") = Some hello_bytes)
    by (vm_compute; reflexivity).
  split; [exact E|].
  rewrite (proj2 (C6_secret_round_trip world_signed sample_contract
                    sample_owner (lit "OPENAI_API_KEY") openai_id
                    w3_signed sample_account
                    (client_events sample_account)
                    (lit "hello-key-123") hello_bytes
                    ltac:(vm_compute; reflexivity)
                    ltac:(vm_compute; reflexivity)
                    eq_refl E eq_refl)).
  reflexivity.
Defined.

(** C7. Decode and revert errors of get-secret: when the returned bytes
    are not valid UTF-8, the decode step raises a DecodeError, which is
    caught and reported by the error line, the command returning
    normally; an exception raised by the call itself, a
    ContractRevertError among them, is reported by the same line. *)
Theorem C7_decode_and_revert_errors_printed (w : World) (c o p : str)
        (pid : bytes) (w3 : Web3) (a : Account) (t : list event) :
  get_client w = (Ok (w3, a), t) ->
  dict_get PROVIDERS p = Some pid ->
  eth_contract_check w w3 c ABI = None ->
  let ct := mkContract w3 c ABI in
  let reported := fun e =>
    (Ok tt, t ++ [EvPrint (lit "Caller: " ++ address a);
                  EvPrint (lit "Owner: " ++ o);
                  EvPrint (lit "Provider: " ++ p);
                  EvContract c ABI;
                  EvCall ct (GetSecret o pid);
                  EvPrint (nl ++ lit "✗ Error: " ++ exn_str e)]) in
  (forall bs,
      rpc_getSecret w ct o pid = inr bs ->
      Utf8.decode bs = None ->
      exists e,
        decode_utf8 bs w = (Raised e, []) /\
        exn_kind_of e = DecodeError /\
        get_secret c o p w = reported e) /\
  (forall e,
      rpc_getSecret w ct o pid = inl e ->
      get_secret c o p w = reported e).
Proof.
  intros G Hp Hc ct reported.
  destruct (provider_id_nonempty p pid Hp) as (b0 & r & ->).
  split.
  - intros bs Hr Hd.
    exists (mkExn DecodeError (UnicodeDecodeError_str w bs)).
    split; [unfold decode_utf8; rewrite Hd; reflexivity|].
    split; [reflexivity|].
    rewrite get_secret_run, G. cbv beta iota zeta.
    rewrite Hp, Hc. fold ct. rewrite Hr, Hd. unfold reported.
    rewrite <- !app_assoc. reflexivity.
  - intros e Hr.
    rewrite get_secret_run, G. cbv beta iota zeta.
    rewrite Hp, Hc. fold ct. rewrite Hr. unfold reported.
    rewrite <- !app_assoc. reflexivity.
Qed.

Lemma C7_decode_and_revert_errors_witness :
  Utf8.decode [xff; xfe] = None /\
  get_secret sample_contract sample_owner (lit "OPENAI_API_KEY")
    world_bad_bytes =
  (Ok tt, client_events sample_account ++
          [EvPrint (lit "Caller: " ++ address sample_account);
           EvPrint (lit "Owner: " ++ sample_owner);
           EvPrint (lit "Provider: " ++ lit "OPENAI_API_KEY");
           EvContract sample_contract ABI;
           EvCall (mkContract w3_signed sample_contract ABI)
                  (GetSecret sample_owner openai_id);
           EvPrint (nl ++ lit "✗ Error: "
                       ++ lit "'utf-8' codec can't decode bytes")]).
Proof.
  assert (D : Utf8.decode [xff; xfe] = None) by (vm_compute; reflexivity).
  split; [exact D|].
  destruct (proj1 (C7_decode_and_revert_errors_printed world_bad_bytes
                     sample_contract sample_owner (lit "OPENAI_API_KEY")
                     openai_id w3_signed sample_account
                     (client_events sample_account)
                     ltac:(vm_compute; reflexivity)
                     ltac:(vm_compute; reflexivity)
                     eq_refl) [xff; xfe] eq_refl D)
    as (e & He & _ & Hg).
  rewrite Hg. unfold decode_utf8 in He. rewrite D in He.
  cbn [world_bad_bytes mock_world UnicodeDecodeError_str] in He.
  assert (Ee : e = mkExn DecodeError (lit "'utf-8' codec can't decode bytes"))
    by congruence.
  rewrite Ee. reflexivity.
Defined.

(** ** The ABI bound by whoami *)

(** C10. The ABI that whoami binds to the contract is the base ABI, whose
    third entry already declares whoAmI, with an identical whoAmI entry
    appended: four entries, the last two equal, and this is the list
    that whoami passes to the contract proxy. *)
Theorem C10_whoami_abi_duplicates_whoAmI :
  length ABI = 3%nat /\
  length abi_with_whoami = 4%nat /\
  (exists entry,
      nth_error ABI 2 = Some entry /\
      abi_name entry = lit "whoAmI" /\
      abi_with_whoami = ABI ++ [entry] /\
      nth_error abi_with_whoami 2 = Some entry /\
      nth_error abi_with_whoami 3 = Some entry /\
      filter (fun e => str_eqb (abi_name e) (lit "whoAmI")) abi_with_whoami
        = [entry; entry]) /\
  (forall w c w3 a t,
      get_client w = (Ok (w3, a), t) ->
      In (EvContract c abi_with_whoami) (snd (whoami c w)) /\
      forall c' abi',
        In (EvContract c' abi') (snd (whoami c w)) ->
        c' = c /\ abi' = abi_with_whoami).
Proof.
  split; [reflexivity|]. split; [reflexivity|]. split.
  - eexists. split; [reflexivity|]. repeat split; vm_compute; reflexivity.
  - intros w c w3 a t G.
    destruct (get_client_events w _ _ G) as (_ & _ & Ht).
    rewrite (Ht w3 a eq_refl) in G. clear Ht t.
    rewrite whoami_run, G. cbv beta iota zeta.
    destruct (eth_contract_check w w3 c abi_with_whoami) as [e|];
      [|destruct (rpc_whoAmI w _) as [e|r]];
      cbn [snd]; unfold client_events; rewrite <- ?app_assoc; cbn [app];
      (split; [cbn [In]; tauto|]);
      intros c' abi' H; cbn [In] in H;
      repeat (destruct H as [H|H]; try discriminate; try contradiction);
      split; congruence.
Qed.

Lemma C10_whoami_abi_witness :
  get_client world_signed = (Ok (w3_signed, sample_account),
                             client_events sample_account) /\
  In (EvContract sample_contract abi_with_whoami)
     (snd (whoami sample_contract world_signed)).
Proof.
  assert (G : get_client world_signed
              = (Ok (w3_signed, sample_account),
                 client_events sample_account))
    by (vm_compute; reflexivity).
  split; [exact G|].
  apply (proj2 (proj2 (proj2 C10_whoami_abi_duplicates_whoAmI))
           world_signed sample_contract w3_signed sample_account _ G).
Defined.

End Network.

(** ** Further properties of the client *)

Section ClientRuns.
Import Py Vault Trace.

Lemma printed_In (t : list event) (x : str) :
  In (EvPrint x) t <-> In x (printed t).
Proof.
  unfold printed. rewrite in_flat_map. split.
  - intros H. exists (EvPrint x). split; [exact H | left; reflexivity].
  - intros (e & He & Hx). destruct e; cbn in Hx; try contradiction.
    destruct Hx as [->|[]]. exact He.
Qed.

Lemma get_client_no_print (w : World) (r : result (Web3 * Account))
      (t : list event) (x : str) :
  get_client w = (r, t) -> ~ In (EvPrint x) t.
Proof.
  intros G H. apply printed_In in H.
  destruct (get_client_events w r t G) as (Hp & _). rewrite Hp in H.
  exact H.
Qed.

(** get-info, success path: when the call returns the triple of the
    record, get_info prints the Caller line and then the version, the
    exists flag and the isAllowed flag as returned, each on its line,
    and returns; the flags are reported as they come, whatever their
    combination. *)
Theorem X_get_info_reports_record (w : World) (c o p : str) (pid : bytes)
        (w3 : Web3) (a : Account) (t : list event)
        (version : Z) (exists_ isAllowed : bool) :
  get_client w = (Ok (w3, a), t) ->
  dict_get PROVIDERS p = Some pid ->
  eth_contract_check w w3 c ABI = None ->
  rpc_getSecretInfo w (mkContract w3 c ABI) o pid
    = inr (version, exists_, isAllowed) ->
  get_info c o p w =
    (Ok tt,
     t ++ [EvPrint (lit "Caller: " ++ address a);
           EvContract c ABI;
           EvCall (mkContract w3 c ABI) (GetSecretInfo o pid);
           EvPrint (nl ++ lit "Version: " ++ str_of_int version);
           EvPrint (lit "Exists: " ++ str_of_bool exists_);
           EvPrint (lit "IsAllowed: " ++ str_of_bool isAllowed
                    ++ lit "  <-- Should be True with signed query")]).
Proof.
  intros G Hp Hc Hr.
  destruct (provider_id_nonempty p pid Hp) as (b0 & r & ->).
  rewrite get_info_run, G. cbv beta iota zeta.
  rewrite Hp, Hc, Hr. rewrite <- !app_assoc. reflexivity.
Qed.

Lemma X_get_info_reports_record_witness :
  printed (snd (get_info sample_contract sample_owner
                  (lit "OPENAI_API_KEY") world_signed)) =
  [lit "Caller: " ++ address sample_account;
   nl ++ lit "Version: " ++ lit "1";
   lit "Exists: " ++ lit "True";
   lit "IsAllowed: " ++ lit "True"
     ++ lit "  <-- Should be True with signed query"].
Proof.
  rewrite (X_get_info_reports_record world_signed sample_contract
             sample_owner (lit "OPENAI_API_KEY") openai_id
             w3_signed sample_account (client_events sample_account)
             1 true true
             ltac:(vm_compute; reflexivity)
             ltac:(vm_compute; reflexivity)
             eq_refl eq_refl).
  reflexivity.
Defined.


(** How [get_client] fails: it raises exactly when PRIVATE_KEY is unset
    or empty (its own ValueError, nothing but the variable read), when
    [Account.from_key] rejects the key (that exception, before any
    client is constructed), or when [sapphire.wrap] raises (that
    exception); the key is handed to [Account.from_key] as it was read. *)
Theorem X_get_client_failure_modes (w : World) (e : exn) (t : list event) :
  get_client w = (Raised e, t) <->
  (truthy (environ_PRIVATE_KEY w) = false /\
   e = MISSING_KEY /\ t = [EvEnviron]) \/
  (exists key,
      environ_PRIVATE_KEY w = Some key /\ key <> [] /\
      Account_from_key w key = inl e /\ t = [EvEnviron; EvFromKey]) \/
  (exists key a,
      environ_PRIVATE_KEY w = Some key /\ key <> [] /\
      Account_from_key w key = inr a /\
      sapphire_wrap w (mkWeb3 RPC_URL None) a = inl e /\
      t = client_events a).
Proof.
  rewrite get_client_run. split.
  - destruct (environ_PRIVATE_KEY w) as [[|k0 k]|] eqn:Ek.
    1,3: intros H; left; cbn [truthy];
      assert (e = MISSING_KEY /\ t = [EvEnviron]) by (split; congruence);
      tauto.
    destruct (Account_from_key w (k0 :: k)) as [e0|a] eqn:Ef.
    { intros H. right. left. exists (k0 :: k).
      assert (e0 = e /\ t = [EvEnviron; EvFromKey]) as [-> ->]
        by (split; congruence).
      repeat split; congruence. }
    destruct (sapphire_wrap w _ a) as [e0|w3] eqn:Ew; [|discriminate].
    intros H. right. right. exists (k0 :: k), a.
    assert (e0 = e /\ t = client_events a) as [-> ->] by (split; congruence).
    repeat split; congruence.
  - intros [(Hk & -> & ->)|[(key & Ek & Hne & Ef & ->)
                           |(key & a & Ek & Hne & Ef & Ew & ->)]].
    + destruct (environ_PRIVATE_KEY w) as [[|k0 k]|];
        (reflexivity || discriminate).
    + rewrite Ek. destruct key as [|k0 k]; [congruence|].
      rewrite Ef. reflexivity.
    + rewrite Ek. destruct key as [|k0 k]; [congruence|].
      rewrite Ef, Ew. reflexivity.
Qed.

Lemma X_get_client_failure_modes_witness :
  main (argv_of sample_prog (CmdGetInfo sample_contract sample_owner
                               (lit "OPENAI_API_KEY"))) world_bad_key
  = (Raised bad_key_exn, [EvEnviron; EvFromKey]).
Proof.
  rewrite main_argv_of.
  apply (run_command_client_raised world_bad_key).
  apply (proj2 (X_get_client_failure_modes world_bad_key bad_key_exn
                  [EvEnviron; EvFromKey])).
  right. left. exists (lit "0x1234").
  repeat split; try reflexivity. vm_compute. discriminate.
Defined.

(** The only exceptions that leave [main]: if [main] raises, the
    exception is the one [get_client] raised, or the one raised while
    the contract proxy of a recognized command was built; an exception of
    the call or of the decoding never leaves [main]. *)
Theorem X_main_raises_only_setup_errors (argv : list str) (w : World)
        (e : exn) (t : list event) :
  main argv w = (Raised e, t) ->
  get_client w = (Raised e, t) \/
  exists cmd w3 a t',
    recognized_by_spec argv = Some cmd /\
    get_client w = (Ok (w3, a), t') /\
    eth_contract_check w w3 (command_contract cmd) (command_abi cmd)
      = Some e.
Proof.
  rewrite main_recognized.
  destruct (recognized_by_spec argv) as [[c o p|c o p|c]|];
    [cbn [run_command]; rewrite get_secret_run
    |cbn [run_command]; rewrite get_info_run
    |cbn [run_command]; rewrite whoami_run
    |discriminate].
  all: destruct (get_client w) as [[[w3 a]|e0] t0] eqn:G;
    cbv beta iota zeta;
    [|intros H; left;
      assert (e0 = e /\ t0 = t) as [-> ->] by (split; congruence);
      reflexivity].
  all: repeat match goal with
              | |- context [match ?x with _ => _ end] =>
                  destruct x eqn:?
              end; try discriminate.
  all: intros H; right; do 4 eexists; split; [reflexivity|];
    split; [reflexivity|]; cbn [command_contract command_abi];
    congruence.
Qed.

Lemma X_main_raises_only_setup_errors_witness :
  main (argv_of sample_prog (CmdWhoami sample_contract)) world_no_key
    = (Raised MISSING_KEY, [EvEnviron]) /\
  get_client world_no_key = (Raised MISSING_KEY, [EvEnviron]).
Proof.
  assert (H : main (argv_of sample_prog (CmdWhoami sample_contract))
                world_no_key = (Raised MISSING_KEY, [EvEnviron]))
    by (vm_compute; reflexivity).
  split; [exact H|].
  destruct (X_main_raises_only_setup_errors _ _ _ _ H)
    as [G|(cmd & w3 & a & t' & _ & G & _)]; [exact G|].
  vm_compute in G. discriminate.
Defined.

End ClientRuns.

(** ** What the commands send and print *)

Section ClientRequests.
Import Py Vault Trace.

Lemma get_client_no_proxy_no_call (w : World) (r : result (Web3 * Account))
      (t : list event) (ev : event) :
  get_client w = (r, t) -> In ev t -> is_network ev = false.
Proof.
  intros G Hin. destruct (get_client_events w r t G) as (_ & Hn & _).
  unfold no_network in Hn. rewrite forallb_forall in Hn.
  specialize (Hn ev Hin). destruct (is_network ev); [discriminate|reflexivity].
Qed.

Lemma provider_id_is_hash (p : str) (pid : bytes) :
  dict_get PROVIDERS p = Some pid ->
  In p PROVIDER_NAMES /\
  exists name_bytes,
    Utf8.encode p = Some name_bytes /\ pid = Keccak.keccak256 name_bytes.
Proof.
  intros Hp. split.
  - destruct (dict_get PROVIDERS p) eqn:E; [|discriminate].
    rewrite <- PROVIDERS_keys.
    apply dict_get_In in E. apply (in_map fst) in E. exact E.
  - apply dict_get_In, PROVIDERS_hashed in Hp. unfold Web3_keccak in Hp.
    destruct (Utf8.encode p) as [nb|]; [|discriminate].
    cbn [option_map] in Hp. apply some_inj in Hp. eauto.
Qed.

Lemma differ_at (n : nat) (a b : str) : nth n a 0 <> nth n b 0 -> a <> b.
Proof. intros H E. apply H. rewrite E. reflexivity. Qed.

(** whoAmI is never asked: where the contract proxy rejects colliding
    selectors, no run of [main], whatever the argument vector, sends a
    whoAmI call; get-secret and get-info only send their own call, and
    whoami stops when it builds its proxy. *)
Theorem X_no_whoAmI_call_is_ever_sent (argv : list str) (w : World)
        (c : Contract) :
  Proxy.validates_abi w ->
  ~ In (EvCall c WhoAmI) (snd (main argv w)).
Proof.
  intros Hv. rewrite main_recognized.
  destruct (recognized_by_spec argv) as [[ca o p|ca o p|ca]|];
    cbn [run_command].
  - rewrite get_secret_run.
    destruct (get_client w) as [[[w3 a]|e] t] eqn:G; cbv beta iota zeta.
    2: { cbn [snd]. intros H.
         pose proof (get_client_no_proxy_no_call w _ _ _ G H). discriminate. }
    repeat match goal with
           | |- context [match ?x with _ => _ end] => destruct x
           end; cbn [snd]; intros H; rewrite <- ?app_assoc in H;
      cbn [app] in H; apply in_app_or in H; destruct H as [H|H];
      try (pose proof (get_client_no_proxy_no_call w _ _ _ G H);
           discriminate);
      cbn [In] in H;
      repeat (destruct H as [H|H]; try discriminate; try contradiction).
  - rewrite get_info_run.
    destruct (get_client w) as [[[w3 a]|e] t] eqn:G; cbv beta iota zeta.
    2: { cbn [snd]. intros H.
         pose proof (get_client_no_proxy_no_call w _ _ _ G H). discriminate. }
    repeat match goal with
           | |- context [match ?x with _ => _ end] => destruct x
           end; cbn [snd]; intros H; rewrite <- ?app_assoc in H;
      cbn [app] in H; apply in_app_or in H; destruct H as [H|H];
      try (pose proof (get_client_no_proxy_no_call w _ _ _ G H);
           discriminate);
      cbn [In] in H;
      repeat (destruct H as [H|H]; try discriminate; try contradiction).
  - destruct (get_client w) as [[[w3 a]|e] t] eqn:G.
    + destruct (whoami_fails_at_proxy w ca w3 a t Hv G) as (e & _ & Hrun).
      rewrite Hrun. cbn [snd]. intros H.
      apply in_app_or in H. destruct H as [H|H].
      * pose proof (get_client_no_proxy_no_call w _ _ _ G H). discriminate.
      * cbn [In] in H.
        repeat (destruct H as [H|H]; try discriminate; try contradiction).
    + rewrite whoami_run, G. cbn [snd]. intros H.
      pose proof (get_client_no_proxy_no_call w _ _ _ G H). discriminate.
  - cbn. intros [H|[]]. discriminate.
Qed.

Lemma X_no_whoAmI_call_is_ever_sent_witness :
  Proxy.validates_abi Proxy.world_validating /\
  ~ In (EvCall (mkContract w3_signed sample_contract abi_with_whoami) WhoAmI)
       (snd (main (argv_of sample_prog (CmdWhoami sample_contract))
               Proxy.world_validating)).
Proof.
  split; [exact validating_world_validates|].
  apply X_no_whoAmI_call_is_ever_sent. exact validating_world_validates.
Defined.

(** The request that is sent: a call sent by get-secret or get-info goes
    through the client that [get_client] returned, to the contract
    address given on the command line, for the owner given on the
    command line, and with the Keccak-256 digest of the UTF-8 bytes of
    the provider name, which is one of the six known names. *)
Theorem X_calls_carry_the_arguments (w : World) (c o p : str) (ev : event) :
  (In ev (calls (snd (get_secret c o p w))) ->
   exists w3 a t name_bytes,
     get_client w = (Ok (w3, a), t) /\
     In p PROVIDER_NAMES /\
     Utf8.encode p = Some name_bytes /\
     ev = EvCall (mkContract w3 c ABI)
                 (GetSecret o (Keccak.keccak256 name_bytes))) /\
  (In ev (calls (snd (get_info c o p w))) ->
   exists w3 a t name_bytes,
     get_client w = (Ok (w3, a), t) /\
     In p PROVIDER_NAMES /\
     Utf8.encode p = Some name_bytes /\
     ev = EvCall (mkContract w3 c ABI)
                 (GetSecretInfo o (Keccak.keccak256 name_bytes))).
Proof.
  rewrite get_secret_run, get_info_run.
  destruct (get_client w) as [[[w3 a]|e] t] eqn:G;
    destruct (get_client_events w _ _ G) as (_ & Hn & _);
    destruct (no_network_filters t Hn) as [Hc _];
    cbv beta iota zeta.
  2: { cbn [snd]. rewrite Hc. split; intros []. }
  destruct (dict_get PROVIDERS p) as [[|b0 pid]|] eqn:Hp.
  1,3: split; cbn [snd]; unfold calls in *; rewrite ?filter_app, ?Hc;
    cbn; intros [].
  destruct (provider_id_is_hash p _ Hp) as (Hin & nb & Hnb & Hpid).
  split.
  - destruct (eth_contract_check w w3 c ABI);
      [|destruct (rpc_getSecret w _ o _) as [e|bs];
        [|destruct (Utf8.decode bs)]];
      cbn [snd]; unfold calls in *; rewrite ?filter_app, ?Hc;
      cbn [filter is_call app In]; intros H;
      try contradiction; destruct H as [<-|[]];
      exists w3, a, t, nb; rewrite <- Hpid; auto.
  - destruct (eth_contract_check w w3 c ABI);
      [|destruct (rpc_getSecretInfo w _ o _) as [e|[[v ex] al]]];
      cbn [snd]; unfold calls in *; rewrite ?filter_app, ?Hc;
      cbn [filter is_call app In]; intros H;
      try contradiction; destruct H as [<-|[]];
      exists w3, a, t, nb; rewrite <- Hpid; auto.
Qed.

Lemma X_calls_carry_the_arguments_witness :
  In (EvCall (mkContract w3_signed sample_contract ABI)
             (GetSecret sample_owner openai_id))
     (calls (snd (get_secret sample_contract sample_owner
                    (lit "OPENAI_API_KEY") world_signed))) /\
  Utf8.encode (lit "OPENAI_API_KEY") = Some (of_string "OPENAI_API_KEY").
Proof.
  assert (Hin : In (EvCall (mkContract w3_signed sample_contract ABI)
                           (GetSecret sample_owner openai_id))
                   (calls (snd (get_secret sample_contract sample_owner
                                  (lit "OPENAI_API_KEY") world_signed)))).
  { vm_compute. left. reflexivity. }
  split; [exact Hin|].
  destruct (proj1 (X_calls_carry_the_arguments world_signed
                     sample_contract sample_owner (lit "OPENAI_API_KEY") _)
              Hin) as (w3 & a & t & nb & _ & _ & Hnb & _).
  rewrite Hnb. vm_compute in Hnb. apply some_inj in Hnb. rewrite Hnb.
  reflexivity.
Defined.

(** The success line tells the secret: once the call has returned bytes,
    get-secret prints the success line for a text exactly when the bytes
    are the UTF-8 encoding of that text; bytes that are no encoding of
    any text never produce a success line, and two different byte
    strings never print the same secret. *)
Theorem X_secret_line_iff_encoding (w : World) (c o p : str) (pid : bytes)
        (w3 : Web3) (a : Account) (t : list event) (bs : bytes) (s : str) :
  get_client w = (Ok (w3, a), t) ->
  dict_get PROVIDERS p = Some pid ->
  eth_contract_check w w3 c ABI = None ->
  rpc_getSecret w (mkContract w3 c ABI) o pid = inr bs ->
  (In (EvPrint (secret_line s)) (snd (get_secret c o p w)) <->
   Utf8.encode s = Some bs).
Proof.
  intros G Hp Hc Hr.
  destruct (provider_id_nonempty p pid Hp) as (b0 & r & ->).
  rewrite get_secret_run, G. cbv beta iota zeta. rewrite Hp, Hc, Hr.
  rewrite <- decode_iff_encode.
  assert (Hhead : forall pre y x0 xr,
             pre = x0 :: xr -> x0 <> 10 ->
             EvPrint (pre ++ y) <> EvPrint (secret_line s)).
  { intros pre y x0 xr -> N E.
    assert (E' : (x0 :: xr) ++ y = secret_line s) by congruence.
    revert E'. apply (differ_at 0).
    unfold secret_line, nl. cbn [app nth]. exact N. }
  destruct (Utf8.decode bs) as [s0|] eqn:Hd; cbn [snd].
  - split.
    + intros H. rewrite <- !app_assoc in H. cbn [app] in H.
      apply in_app_or in H. cbn [In] in H.
      destruct H as [H|[H|[H|[H|[H|[H|[H|[]]]]]]]];
        try discriminate;
        try (exfalso; exact (get_client_no_print w _ _ _ G H));
        try (exfalso; revert H; eapply Hhead;
             [vm_compute; reflexivity | discriminate]).
      assert (E' : secret_line s0 = secret_line s) by congruence.
      unfold secret_line in E'.
      apply app_inv_head in E'. apply app_inv_head in E'. congruence.
    + intros E. assert (s0 = s) by congruence. subst s0.
      rewrite <- !app_assoc. cbn [app]. apply in_or_app. cbn [In]. tauto.
  - split; [|discriminate].
    intros H. rewrite <- !app_assoc in H. cbn [app] in H.
    apply in_app_or in H. cbn [In] in H.
    destruct H as [H|[H|[H|[H|[H|[H|[H|[]]]]]]]];
      try discriminate;
      try (exfalso; exact (get_client_no_print w _ _ _ G H));
      try (exfalso; revert H; eapply Hhead;
           [vm_compute; reflexivity | discriminate]).
Qed.

Lemma X_secret_line_iff_encoding_witness :
  In (EvPrint (secret_line (lit "hello-key-123")))
     (snd (get_secret sample_contract sample_owner (lit "OPENAI_API_KEY")
             world_signed)) /\
  ~ In (EvPrint (secret_line (lit "hello-key-124")))
       (snd (get_secret sample_contract sample_owner (lit "OPENAI_API_KEY")
               world_signed)).
Proof.
  pose proof (fun s =>
    X_secret_line_iff_encoding world_signed sample_contract sample_owner
      (lit "OPENAI_API_KEY") openai_id w3_signed sample_account
      (client_events sample_account) hello_bytes s
      ltac:(vm_compute; reflexivity) ltac:(vm_compute; reflexivity)
      eq_refl eq_refl) as H.
  split.
  - apply H. vm_compute. reflexivity.
  - intros N. apply H in N. vm_compute in N. discriminate.
Defined.

End ClientRequests.

Section ClientProxy.
Import Py Vault Trace.



(** No two providers share an identifier: the lookup in the provider
    table is injective, so two names that resolve to the same ProviderId
    are the same name. *)
Theorem X_provider_ids_injective (p q : str) (id : bytes) :
  dict_get PROVIDERS p = Some id ->
  dict_get PROVIDERS q = Some id ->
  p = q.
Proof.
  intros Hp Hq. apply dict_get_In in Hp. apply dict_get_In in Hq.
  remember PROVIDERS as table eqn:E. vm_compute in E. subst table.
  cbn [In] in Hp, Hq.
  repeat (destruct Hp as [Hp|Hp]; [|try contradiction]);
    repeat (destruct Hq as [Hq|Hq]; [|try contradiction]);
    congruence.
Qed.

Lemma X_provider_ids_injective_witness :
  dict_get PROVIDERS (lit "XAI_API_KEY")
    = Some (Keccak.keccak256 (of_string "XAI_API_KEY")) /\
  lit "XAI_API_KEY" = lit "XAI_API_KEY".
Proof.
  assert (H : dict_get PROVIDERS (lit "XAI_API_KEY")
              = Some (Keccak.keccak256 (of_string "XAI_API_KEY")))
    by (vm_compute; reflexivity).
  split; [exact H|].
  exact (X_provider_ids_injective _ _ _ H H).
Defined.

End ClientProxy.

(** ** The test script *)

Section TestScript.
Import Py TestSignedQuery.

Lemma test_main_run (w : World) :
  main w =
  let cw := client_world w in
  match Vault.environ_PRIVATE_KEY cw with
  | Some ((_ :: _) as key) =>
      match Vault.Account_from_key cw key with
      | inl e => (Vault.Raised e, [Ev Vault.EvEnviron; Ev Vault.EvFromKey])
      | inr a =>
          match Vault.sapphire_wrap cw (Vault.mkWeb3 RPC_URL None) a with
          | inl e =>
              (Vault.Raised e,
               [Ev Vault.EvEnviron; Ev Vault.EvFromKey;
                P (lit "Signer address: " ++ Vault.address a ++ Vault.nl);
                Ev (Vault.EvHTTPProvider RPC_URL);
                Ev (Vault.EvWrap a)])
          | inr w3 =>
              match rpc_chain_id w w3 with
              | inl e => (Vault.Raised e, setup_events a w3)
              | inr n =>
                  let t2 :=
                    setup_events a w3 ++
                    [P (lit "Connected to chain ID: " ++ str_of_int n
                          ++ Vault.nl);
                     Ev (Vault.EvContract CONTRACT ABI)] in
                  match Vault.eth_contract_check cw w3 CONTRACT ABI with
                  | Some e => (Vault.Raised e, t2)
                  | None =>
                      let ct := Vault.mkContract w3 CONTRACT ABI in
                      (Vault.Ok tt,
                       t2 ++
                       [P (lit "--- Test 1: getSecretInfo (signed query) ---");
                        Ev (Vault.EvCall ct
                                (Vault.GetSecretInfo OWNER provider_id))]
                       ++ map P
                            (test1_lines
                               (Vault.rpc_getSecretInfo cw ct OWNER
                                  provider_id))
                       ++ [P (Vault.nl ++
                                lit "--- Test 2: getSecret (signed query) ---");
                           Ev (Vault.EvCall ct
                                   (Vault.GetSecret OWNER provider_id))]
                       ++ map P
                            (test2_lines w
                               (Vault.rpc_getSecret cw ct OWNER
                                  provider_id))
                       ++ [P (Vault.nl ++ lit "=== Test Complete ===")])
                  end
              end
          end
      end
  | _ =>
      (Vault.Raised (Vault.ValueError (lit "PRIVATE_KEY env var required")),
       [Ev Vault.EvEnviron])
  end.
Proof.
  cbv zeta. unfold main, bind at 1, lift at 1.
  unfold Vault.os_environ_get_PRIVATE_KEY.
  destruct (Vault.environ_PRIVATE_KEY (client_world w)) as [[|k0 k]|];
    try reflexivity.
  unfold bind at 1, lift at 1, Vault.Account_from_key_, Vault.of_sum.
  destruct (Vault.Account_from_key (client_world w) (k0 :: k)) as [e|a];
    [reflexivity|].
  unfold bind, print, lift, Vault.print, Vault.emit,
    Vault.Web3_HTTPProvider, Vault.sapphire_wrap_, Vault.of_sum.
  destruct (Vault.sapphire_wrap (client_world w) _ a) as [e|w3];
    [reflexivity|].
  unfold eth_chain_id.
  destruct (rpc_chain_id w w3) as [e|n]; [reflexivity|].
  unfold Vault.eth_contract.
  destruct (Vault.eth_contract_check (client_world w) w3 CONTRACT ABI)
    as [e|]; [reflexivity|].
  unfold try_except, bind, lift, Vault.call_getSecretInfo,
    Vault.call_getSecret, Vault.of_sum, Vault.decode_utf8,
    test1_lines, test2_lines.
  destruct (Vault.rpc_getSecretInfo (client_world w) _ OWNER _)
    as [e1|[[v ex] al]];
    destruct (Vault.rpc_getSecret (client_world w) _ OWNER _)
      as [e2|bs];
    try destruct (Utf8.decode bs) as [s|];
    reflexivity.
Qed.

(** The script without a key: with PRIVATE_KEY unset or empty the test
    script raises its own ValueError, "PRIVATE_KEY env var required",
    before anything is printed and before any client exists. *)
Theorem X_test_script_missing_key (w : World) :
  truthy (Vault.environ_PRIVATE_KEY (client_world w)) = false ->
  main w =
    (Vault.Raised (Vault.ValueError (lit "PRIVATE_KEY env var required")),
     [Ev Vault.EvEnviron]).
Proof.
  intros H. rewrite test_main_run. cbv zeta.
  destruct (Vault.environ_PRIVATE_KEY (client_world w)) as [[|k0 k]|];
    cbn in H; (reflexivity || discriminate).
Qed.

Lemma X_test_script_missing_key_witness :
  truthy (Vault.environ_PRIVATE_KEY (client_world world_no_key)) = false /\
  main world_no_key =
    (Vault.Raised (Vault.ValueError (lit "PRIVATE_KEY env var required")),
     [Ev Vault.EvEnviron]).
Proof.
  split; [reflexivity|].
  apply (X_test_script_missing_key world_no_key). reflexivity.
Defined.

Lemma test_main_completes (w : World) (key : str)
      (a : Vault.Account) (w3 : Vault.Web3) (n : Z) :
  let cw := client_world w in
  let ct := Vault.mkContract w3 CONTRACT ABI in
  Vault.environ_PRIVATE_KEY cw = Some key ->
  key <> [] ->
  Vault.Account_from_key cw key = inr a ->
  Vault.sapphire_wrap cw (Vault.mkWeb3 RPC_URL None) a = inr w3 ->
  rpc_chain_id w w3 = inr n ->
  Vault.eth_contract_check cw w3 CONTRACT ABI = None ->
  main w =
    (Vault.Ok tt,
     setup_events a w3 ++
     [P (lit "Connected to chain ID: " ++ str_of_int n ++ Vault.nl);
      Ev (Vault.EvContract CONTRACT ABI);
      P (lit "--- Test 1: getSecretInfo (signed query) ---");
      Ev (Vault.EvCall ct (Vault.GetSecretInfo OWNER provider_id))]
     ++ map P (test1_lines
                 (Vault.rpc_getSecretInfo cw ct OWNER provider_id))
     ++ [P (Vault.nl ++ lit "--- Test 2: getSecret (signed query) ---");
         Ev (Vault.EvCall ct (Vault.GetSecret OWNER provider_id))]
     ++ map P (test2_lines w
                 (Vault.rpc_getSecret cw ct OWNER provider_id))
     ++ [P (Vault.nl ++ lit "=== Test Complete ===")]).
Proof.
  intros cw ct Hk Hne Hf Hw Hc Hp. rewrite test_main_run. cbv zeta.
  fold cw. rewrite Hk. destruct key as [|k0 k]; [congruence|].
  rewrite Hf, Hw, Hc, Hp. fold ct. rewrite <- !app_assoc. reflexivity.
Qed.

Lemma printed_app (t1 t2 : list event) :
  printed (t1 ++ t2) = printed t1 ++ printed t2.
Proof. apply flat_map_app. Qed.

Lemma printed_P (l : list str) : printed (map P l) = l.
Proof.
  induction l as [|x l IH]; [reflexivity|].
  cbn [map]. change (printed (P x :: map P l)) with (x :: printed (map P l)).
  now rewrite IH.
Qed.

Lemma calls_app (t1 t2 : list event) :
  calls (t1 ++ t2) = calls t1 ++ calls t2.
Proof. apply filter_app. Qed.

Lemma calls_P (l : list str) : calls (map P l) = [].
Proof. induction l as [|x l IH]; [reflexivity | exact IH]. Qed.

(** The two tests are independent: once the signer is loaded, the client
    wrapped, the chain id obtained and the proxy built, the script runs
    Test 1 and then Test 2 whatever Test 1 did, prints for each its
    result or its error line, ends with the completion line and returns
    normally. *)
Theorem X_test_script_runs_both_tests (w : World) (key : str)
        (a : Vault.Account) (w3 : Vault.Web3) (n : Z) :
  let cw := client_world w in
  let ct := Vault.mkContract w3 CONTRACT ABI in
  Vault.environ_PRIVATE_KEY cw = Some key ->
  key <> [] ->
  Vault.Account_from_key cw key = inr a ->
  Vault.sapphire_wrap cw (Vault.mkWeb3 RPC_URL None) a = inr w3 ->
  rpc_chain_id w w3 = inr n ->
  Vault.eth_contract_check cw w3 CONTRACT ABI = None ->
  fst (main w) = Vault.Ok tt /\
  printed (snd (main w)) =
    [lit "Signer address: " ++ Vault.address a ++ Vault.nl;
     lit "Connected to chain ID: " ++ str_of_int n ++ Vault.nl;
     lit "--- Test 1: getSecretInfo (signed query) ---"]
    ++ test1_lines (Vault.rpc_getSecretInfo cw ct OWNER provider_id)
    ++ [Vault.nl ++ lit "--- Test 2: getSecret (signed query) ---"]
    ++ test2_lines w (Vault.rpc_getSecret cw ct OWNER provider_id)
    ++ [Vault.nl ++ lit "=== Test Complete ==="].
Proof.
  intros cw ct Hk Hne Hf Hw Hc Hp.
  rewrite (test_main_completes w key a w3 n Hk Hne Hf Hw Hc Hp).
  fold cw ct. split; [reflexivity|]. cbn [snd].
  rewrite !printed_app, !printed_P. reflexivity.
Qed.

Lemma X_test_script_runs_both_tests_witness :
  printed (snd (main world_test1_reverts)) =
  [lit "Signer address: " ++ Vault.address Vault.sample_account ++ Vault.nl;
   lit "Connected to chain ID: " ++ lit "23295" ++ Vault.nl;
   lit "--- Test 1: getSecretInfo (signed query) ---";
   lit "Error: " ++ lit "execution reverted: not allowed";
   Vault.nl ++ lit "--- Test 2: getSecret (signed query) ---";
   lit "Secret retrieved: " ++ lit "hello-key-123";
   Vault.nl ++ lit "=== Test Complete ==="].
Proof.
  rewrite (proj2 (X_test_script_runs_both_tests world_test1_reverts
                    Vault.sample_key Vault.sample_account Vault.w3_signed
                    23295
                    eq_refl ltac:(vm_compute; discriminate)
                    eq_refl ltac:(vm_compute; reflexivity) eq_refl eq_refl)).
  vm_compute. reflexivity.
Defined.

(** The chain id is requested outside any [try]: when that request
    fails, the script ends with the exception after the signer line,
    its only print; no proxy is built and neither test runs. *)
Theorem X_test_script_chain_id_failure (w : World) (key : str)
        (a : Vault.Account) (w3 : Vault.Web3) (e : Vault.exn) :
  let cw := client_world w in
  Vault.environ_PRIVATE_KEY cw = Some key ->
  key <> [] ->
  Vault.Account_from_key cw key = inr a ->
  Vault.sapphire_wrap cw (Vault.mkWeb3 RPC_URL None) a = inr w3 ->
  rpc_chain_id w w3 = inl e ->
  main w = (Vault.Raised e, setup_events a w3) /\
  calls (snd (main w)) = [].
Proof.
  intros cw Hk Hne Hf Hw Hc.
  assert (H : main w = (Vault.Raised e, setup_events a w3)).
  { rewrite test_main_run. cbv zeta. fold cw. rewrite Hk.
    destruct key as [|k0 k]; [congruence|].
    rewrite Hf, Hw, Hc. reflexivity. }
  split; [exact H|]. rewrite H. reflexivity.
Qed.

Lemma X_test_script_chain_id_failure_witness :
  main world_unreachable =
    (Vault.Raised unreachable_exn,
     setup_events Vault.sample_account Vault.w3_signed).
Proof.
  apply (X_test_script_chain_id_failure world_unreachable
           Vault.sample_key Vault.sample_account Vault.w3_signed
           unreachable_exn
           eq_refl ltac:(vm_compute; discriminate)
           eq_refl ltac:(vm_compute; reflexivity) eq_refl).
Defined.

(** The script tests what the client does: in a world where the script
    gets as far as its tests, the client's [get_client] returns the same
    wrapped client for the same account, and the two calls of the script
    are, for the script's contract and owner, the getSecretInfo and
    getSecret calls with the identifier that the client's table stores
    for OPENAI_API_KEY, through a proxy whose ABI is the first two
    entries of the client's ABI. *)
Theorem X_test_script_matches_client (w : World) (key : str)
        (a : Vault.Account) (w3 : Vault.Web3) (n : Z) :
  let cw := client_world w in
  let ct := Vault.mkContract w3 CONTRACT ABI in
  Vault.environ_PRIVATE_KEY cw = Some key ->
  key <> [] ->
  Vault.Account_from_key cw key = inr a ->
  Vault.sapphire_wrap cw (Vault.mkWeb3 RPC_URL None) a = inr w3 ->
  rpc_chain_id w w3 = inr n ->
  Vault.eth_contract_check cw w3 CONTRACT ABI = None ->
  Vault.get_client cw = (Vault.Ok (w3, a), Vault.client_events a) /\
  dict_get Vault.PROVIDERS (lit "OPENAI_API_KEY") = Some provider_id /\
  ABI = firstn 2 Vault.ABI /\
  calls (snd (main w)) =
    [Ev (Vault.EvCall ct (Vault.GetSecretInfo OWNER provider_id));
     Ev (Vault.EvCall ct (Vault.GetSecret OWNER provider_id))].
Proof.
  intros cw ct Hk Hne Hf Hw Hc Hp.
  split; [|split; [|split]].
  - rewrite get_client_run. fold cw. rewrite Hk.
    destruct key as [|k0 k]; [congruence|].
    rewrite Hf. change Vault.RPC_URL with RPC_URL. rewrite Hw. reflexivity.
  - vm_compute. reflexivity.
  - reflexivity.
  - rewrite (test_main_completes w key a w3 n Hk Hne Hf Hw Hc Hp).
    fold cw ct. cbn [snd]. rewrite !calls_app, !calls_P. reflexivity.
Qed.

Lemma X_test_script_matches_client_witness :
  calls (snd (main world_ok)) =
  [Ev (Vault.EvCall (Vault.mkContract Vault.w3_signed CONTRACT ABI)
         (Vault.GetSecretInfo OWNER provider_id));
   Ev (Vault.EvCall (Vault.mkContract Vault.w3_signed CONTRACT ABI)
         (Vault.GetSecret OWNER provider_id))].
Proof.
  apply (X_test_script_matches_client world_ok
           Vault.sample_key Vault.sample_account Vault.w3_signed 23295
           eq_refl ltac:(vm_compute; discriminate)
           eq_refl ltac:(vm_compute; reflexivity) eq_refl eq_refl).
Defined.

End TestScript.
